(** * mcp-okta-auth: the session lifecycle core, embedded and verified

    The development follows the TypeScript sources:
    - [service-registry.ts]: the static catalog [SERVICE_CONFIGS] and the
      query class [ServiceRegistry];
    - [auth-manager.ts]: the class [AuthManager] (credential store on disk,
      session validator, lifecycle operations, legacy propagation);
    - [index.ts]: the tool dispatcher with its catch-all boundary;
    - [cli/status.ts]: the status tool.

    Asynchronous methods run one at a time, so each is a function from the
    world (files on disk, the record of browser launches, the clock) to a
    settled promise and the world afterwards. Numbers are IEEE doubles, as
    in the language. What the code logs or prints on the console while it
    drives the browser is not part of the world. *)

From Stdlib Require Import ZArith Floats Uint63.
From stdpp Require Import gmap strings list.

Open Scope string_scope.
Open Scope list_scope.

(** ** JavaScript strings and plain objects *)

Module Js.

(** [String.prototype.toLowerCase] as it acts on strings of ASCII
    characters; the properties that depend on letter case are stated for
    such strings. *)
Definition lower_ascii (c : Ascii.ascii) : Ascii.ascii :=
  let n := Ascii.nat_of_ascii c in
  if (65 <=? n)%nat && (n <=? 90)%nat then Ascii.ascii_of_nat (n + 32) else c.

Fixpoint toLowerCase (s : string) : string :=
  match s with
  | EmptyString => EmptyString
  | String c rest => String (lower_ascii c) (toLowerCase rest)
  end.

(** [String.prototype.includes]: [needle] occurs somewhere in [hay]. *)
Fixpoint includes (hay needle : string) : bool :=
  String.prefix needle hay ||
  match hay with
  | EmptyString => false
  | String _ rest => includes rest needle
  end.

(** Truthiness of a string and of a number. *)
Definition truthy_string (s : string) : bool := negb (String.eqb s EmptyString).
Definition truthy_number (x : float) : bool :=
  negb (PrimFloat.eqb x 0 || PrimFloat.is_nan x).

(** The relational operator [<] on numbers. *)
Definition lt_number (x y : float) : bool := PrimFloat.ltb x y.

(** The numbers JSON text can carry and give back unchanged: the finite
    ones, negative zero apart. Cookies taken from a browser or parsed from
    a file have such numbers. *)
Definition json_number (x : float) : bool :=
  negb (PrimFloat.is_nan x) &&
  match PrimFloat.classify x with
  | PNormal | NNormal | PSubn | NSubn | PZero => true
  | _ => false
  end.

Record Number := mkNumber {
  float_of : float;
  number_ok : json_number float_of = true;
}.

(** An integer as a number (exact below 2^53, as every time value is). *)
Definition number_of_Z (z : Z) : float :=
  if (z <? 0)%Z then PrimFloat.opp (PrimFloat.of_uint63 (Uint63.of_Z (- z)))
  else PrimFloat.of_uint63 (Uint63.of_Z z).

(** An optional string argument is truthy when given and non-empty. *)
Definition truthy_arg (o : option string) : option string :=
  match o with
  | Some s => if truthy_string s then Some s else None
  | None => None
  end.

(** A template literal prints a missing value as [undefined]. *)
Definition show_arg (o : option string) : string := default "undefined" o.

(** A plain object literal is its own properties in insertion order; every
    such object inherits the members of [Object.prototype]. *)
Definition Obj (A : Type) : Type := list (string * A).

Definition Object_prototype_names : list string :=
  [ "constructor"; "__defineGetter__"; "__defineSetter__"; "hasOwnProperty";
    "__lookupGetter__"; "__lookupSetter__"; "isPrototypeOf";
    "propertyIsEnumerable"; "toString"; "valueOf"; "__proto__";
    "toLocaleString" ].

Fixpoint own {A} (o : Obj A) (k : string) : option A :=
  match o with
  | [] => None
  | (k', a) :: rest => if String.eqb k' k then Some a else own rest k
  end.

(** The result of the property read [o[k]]. *)
Inductive Property (A : Type) : Type :=
| Own (a : A)      (* a property of the literal itself *)
| Inherited        (* a function or object found on the prototype *)
| Undefined.
Arguments Own {A} a.
Arguments Inherited {A}.
Arguments Undefined {A}.

Definition inherited (k : string) : bool :=
  existsb (String.eqb k) Object_prototype_names.

Definition get {A} (o : Obj A) (k : string) : Property A :=
  match own o k with
  | Some a => Own a
  | None => if inherited k then Inherited else Undefined
  end.

(** [k in o]. *)
Definition has {A} (o : Obj A) (k : string) : bool :=
  match get o k with Undefined => false | _ => true end.

(** The assignment [o[k] = a]: an own property keeps its place, a new one
    goes last. *)
Fixpoint set {A} (o : Obj A) (k : string) (a : A) : Obj A :=
  match o with
  | [] => [(k, a)]
  | (k', a') :: rest =>
      if String.eqb k' k then (k', a) :: rest else (k', a') :: set rest k a
  end.

(** [Object.keys(o)] and [Object.values(o)]. *)
Definition keys {A} (o : Obj A) : list string := map fst o.
Definition values {A} (o : Obj A) : list A := map snd o.

(** A thrown value: an [Error] with its class name and message. *)
Record Error := mkError { err_name : string; err_message : string }.

(** [Error.prototype.toString], which is what a template literal prints:
    the name alone when there is no message, the message alone when there
    is no name. *)
Definition show_error (e : Error) : string :=
  if String.eqb (err_name e) EmptyString then err_message e
  else if String.eqb (err_message e) EmptyString then err_name e
  else err_name e +:+ ": " +:+ err_message e.

End Js.

(** ** service-registry.ts *)

(** The string literal type ["cookie" | "token"]. *)
Inductive SessionType := session_cookie | session_token.

Record ServiceConfig := {
  name : string;
  url : string;
  cookieDomain : string;
  sessionType : SessionType;
  description : string;
  legacyPath : option string;
}.

Definition SERVICE_CONFIGS : Js.Obj ServiceConfig :=
  [ ("datahub",
     {| name := "DataHub";
        url := "https://datahub.eng.toasttab.com";
        cookieDomain := "datahub.eng.toasttab.com";
        sessionType := session_cookie;
        description := "Toast's metadata platform";
        legacyPath := Some "~/.mcp-datahub/cookies.json" |});
    ("splunk",
     {| name := "Splunk Cloud";
        url := "https://toast.splunkcloud.com";
        cookieDomain := "toast.splunkcloud.com";
        sessionType := session_token;
        description := "Log aggregation and monitoring";
        legacyPath := Some "~/.mcp-splunk/cookies.json" |});
    ("zeppelin",
     {| name := "Zeppelin";
        url := "https://zeppelin-okta.eng.toasttab.com";
        cookieDomain := "zeppelin-okta.eng.toasttab.com";
        sessionType := session_cookie;
        description := "Interactive data analytics notebooks";
        legacyPath := Some "~/.mcp-zeppelin/cookies.json" |}) ].

Module ServiceRegistry.

Definition listServices : list ServiceConfig := Js.values SERVICE_CONFIGS.

Definition getService (name : string) : Js.Property ServiceConfig :=
  Js.get SERVICE_CONFIGS (Js.toLowerCase name).

Definition isValidService (name : string) : bool :=
  Js.has SERVICE_CONFIGS (Js.toLowerCase name).

Definition getServiceNames : list string := Js.keys SERVICE_CONFIGS.

End ServiceRegistry.

(** ** Credentials *)

(** A browser cookie as the automation library hands it out and as
    [JSON.parse] gives it back; a field that is missing reads as
    [undefined]. Instants are seconds since the epoch. *)
Record Cookie := {
  c_name : string;
  c_value : string;
  c_domain : string;
  c_path : string;
  c_expires : option Js.Number;
  c_httpOnly : option bool;
  c_secure : option bool;
  c_sameSite : option string;
}.

(** What a variable declared [Cookie[]] can hold at run time. The browser
    gives arrays of cookies, but [JSON.parse] is cast to [Cookie[]]
    unchecked, so a record on disk can also bring in any other JSON value.
    Values that are no arrays are all here; an object is kept up to what
    the manager can ask of it and stands for one without a property named
    [length]. Arrays are here when their elements are cookies. *)
Inductive Json :=
| Cookies (cookies : list Cookie)
| JNull
| JBool (b : bool)
| JNumber (x : Js.Number)
| JString (s : string)
| JObject.

(** ** The world the manager runs in *)

(** The text of a file on disk, seen through [JSON.parse]: either text the
    parser rejects, or the text [JSON.stringify] prints for a value, which
    parses back to that value. *)
Inductive FileText :=
| Unparseable
| JsonOf (value : Json).

Record File := { data : FileText; mode : N }.

(** One use of the interactive login capability: the cookies the browsing
    context is seeded with, the page it is sent to and the user name it may
    type in. *)
Record LaunchRequest := {
  seed : option Json;
  targetUrl : string;
  loginName : option string;
}.

(** Regular files by absolute path, the launches made so far, and the
    clock in milliseconds. The directories [~/.mcp-auth] and
    [~/.mcp-auth/services], which the constructor creates, exist. *)
Record World := {
  disk : gmap string File;
  launches : list LaunchRequest;
  clock : Z;
}.

Definition with_disk (d : gmap string File) (w : World) : World :=
  {| disk := d; launches := launches w; clock := clock w |}.

Definition with_launch (r : LaunchRequest) (w : World) : World :=
  {| disk := disk w; launches := launches w ++ [r]; clock := clock w |}.

(** A settled promise. *)
Inductive Settled (A : Type) : Type :=
| Fulfilled (a : A)
| Rejected (error : Js.Error).
Arguments Fulfilled {A} a.
Arguments Rejected {A} error.

(** An [async] computation. *)
Definition Async (A : Type) : Type := World -> Settled A * World.

Definition ret {A} (a : A) : Async A := fun w => (Fulfilled a, w).

Definition throw {A} (e : Js.Error) : Async A := fun w => (Rejected e, w).

Definition bind {A B} (m : Async A) (k : A -> Async B) : Async B :=
  fun w =>
    match m w with
    | (Fulfilled a, w') => k a w'
    | (Rejected e, w') => (Rejected e, w')
    end.

Definition try_catch {A} (m : Async A) (handler : Js.Error -> Async A) : Async A :=
  fun w =>
    match m w with
    | (Fulfilled a, w') => (Fulfilled a, w')
    | (Rejected e, w') => handler e w'
    end.

Notation "'let*' x ':=' m 'in' k" := (bind m (fun x => k))
  (at level 10, x name, m at level 100, k at level 200).
Notation "'await' m 'in' k" := (bind m (fun _ => k))
  (at level 10, m at level 100, k at level 200).

(** [Date.now()]. *)
Definition Date_now : Async float :=
  fun w => (Fulfilled (Js.number_of_Z (clock w)), w).

(** What the manager asks of a value it takes for a cookie array. *)
Module Value.

(** Truthiness: [null], [false], [0] and the empty string are
    falsy; arrays (the empty one too) and objects are truthy. *)
Definition truthy (v : Json) : bool :=
  match v with
  | Cookies _ => true
  | JNull => false
  | JBool b => b
  | JNumber x => Js.truthy_number (Js.float_of x)
  | JString s => Js.truthy_string s
  | JObject => true
  end.

(** The method call [v.find(test)], where [v] is the variable [name]:
    only an array has the method. *)
Definition find (name : string) (v : Json) (test : Cookie -> bool)
  : Async (option Cookie) :=
  match v with
  | Cookies cookies => ret (List.find test cookies)
  | JNull =>
      throw (Js.mkError "TypeError" "Cannot read properties of null (reading 'find')")
  | _ => throw (Js.mkError "TypeError" (name +:+ ".find is not a function"))
  end.

(** The property read [v.length]: a number for an array and for a string
    (of which only being zero or not is ever asked), [undefined] for the
    other values, a fault for [null]. *)
Definition length (v : Json) : Async (option nat) :=
  match v with
  | Cookies cookies => ret (Some (List.length cookies))
  | JString s => ret (Some (String.length s))
  | JNull =>
      throw (Js.mkError "TypeError" "Cannot read properties of null (reading 'length')")
  | _ => ret None
  end.

End Value.

(** [JSON.stringify] and [JSON.parse]. *)
Module JSON.

Definition stringify (value : Json) : FileText := JsonOf value.

Definition parse (text : FileText) : Async Json :=
  match text with
  | JsonOf value => ret value
  | Unparseable => throw (Js.mkError "SyntaxError" "Unexpected token in JSON")
  end.

End JSON.

(** [path.join] and [path.dirname], for a normalised directory other than
    the root and a segment that has no separator and is neither [.] nor
    [..]: the join is then the plain concatenation. *)
Module Path.

Definition join (dir seg : string) : string := dir +:+ "/" +:+ seg.

Fixpoint before_last_slash (s : string) : option string :=
  match s with
  | EmptyString => None
  | String c rest =>
      match before_last_slash rest with
      | Some d => Some (String c d)
      | None => if Ascii.eqb c (Ascii.ascii_of_nat 47) then Some EmptyString else None
      end
  end.

Definition dirname (p : string) : string :=
  match before_last_slash p with
  | None => "."
  | Some EmptyString => "/"
  | Some d => d
  end.

End Path.

(** The part of [fs.promises] the manager calls. *)
Module Fs.

Definition ENOENT (p : string) : Js.Error :=
  Js.mkError "Error" ("ENOENT: no such file or directory, open '" +:+ p +:+ "'").

(** A file created by [writeFile] gets mode 0o666 less the usual umask. *)
Definition default_mode : N := 420.

Definition readFile (p : string) : Async FileText :=
  fun w =>
    match disk w !! p with
    | Some f => (Fulfilled (data f), w)
    | None => (Rejected (ENOENT p), w)
    end.

Definition writeFile (p : string) (text : FileText) : Async unit :=
  fun w =>
    let m := match disk w !! p with Some f => mode f | None => default_mode end in
    (Fulfilled tt, with_disk (<[p := {| data := text; mode := m |}]> (disk w)) w).

Definition chmod (p : string) (m : N) : Async unit :=
  fun w =>
    match disk w !! p with
    | Some f => (Fulfilled tt, with_disk (<[p := {| data := data f; mode := m |}]> (disk w)) w)
    | None => (Rejected (ENOENT p), w)
    end.

(** [mkdir(dir, { recursive: true })]: directories hold no data. *)
Definition mkdir_recursive (dir : string) : Async unit := ret tt.

(** [rm(p, { force: true })]. *)
Definition rm_force (p : string) : Async unit :=
  fun w => (Fulfilled tt, with_disk (delete p (disk w)) w).

Definition under (dir p : string) : bool :=
  String.eqb dir p || String.prefix (dir +:+ "/") p.

(** [rm(dir, { recursive: true, force: true })]. *)
Definition rm_recursive_force (dir : string) : Async unit :=
  fun w => (Fulfilled tt,
            with_disk (filter (fun kv => under dir kv.1 = false) (disk w)) w).

End Fs.

(** ** auth-manager.ts *)

(** [cookies] is declared [Cookie[]]. *)
Record AuthResult := {
  success : bool;
  message : string;
  service : option string;
  cookies : option Json;
  token : option string;
}.

(** What [getServiceToken], declared to return [any], hands back. *)
Record TokenResult := {
  t_success : bool;
  t_message : option string;
  t_service : option string;
  t_token : option string;
  t_cookies : option Json;
}.

Record ServiceStatus := {
  authenticated : bool;
  hasServiceCookies : bool;
}.

Record AuthStatus := {
  okta : bool;                          (* okta.authenticated *)
  services : Js.Obj ServiceStatus;
}.

Module AuthManager.
Section Manager.

(** [os.homedir()], and what a browser session started with a request
    ends in: the cookies of its context, or the fault it raised (launch
    failure, a seed that is no cookie array, navigation error, the
    two-minute wait running out). The number is the count of earlier
    launches. *)
Variable home : string.
Variable browser : nat -> LaunchRequest -> Settled (list Cookie).

Definition authDir : string := Path.join home ".mcp-auth".
Definition oktaCookieFile : string := Path.join authDir "okta-cookies.json".
Definition serviceCookieDir : string := Path.join authDir "services".

Definition ensureDirectories : Async unit :=
  await Fs.mkdir_recursive authDir in
  Fs.mkdir_recursive serviceCookieDir.

Definition loadOktaCookies : Async Json :=
  try_catch
    (let* data := Fs.readFile oktaCookieFile in
     JSON.parse data)
    (fun _ => ret JNull).

Definition saveOktaCookies (cookies : list Cookie) : Async unit :=
  await Fs.writeFile oktaCookieFile (JSON.stringify (Cookies cookies)) in
  Fs.chmod oktaCookieFile 384.

Definition serviceFile (service : string) : string :=
  Path.join serviceCookieDir (service +:+ ".json").

Definition loadServiceCookies (service : string) : Async Json :=
  try_catch
    (let file := serviceFile service in
     let* data := Fs.readFile file in
     JSON.parse data)
    (fun _ => ret (Cookies [])).

Definition saveServiceCookies (service : string) (cookies : list Cookie) : Async unit :=
  let file := serviceFile service in
  await Fs.writeFile file (JSON.stringify (Cookies cookies)) in
  Fs.chmod file 384.

Definition is_session_cookie (c : Cookie) : bool :=
  String.eqb (c_name c) "JSESSIONID" || String.eqb (c_name c) "idx".

Definition validateOktaSession (cookies : Json) : Async bool :=
  let* ms := Date_now in
  let now := PrimFloat.div ms 1000 in
  let* sessionCookie := Value.find "cookies" cookies is_session_cookie in
  match sessionCookie with
  | None => ret false
  | Some sessionCookie =>
      match c_expires sessionCookie with
      | Some expires =>
          if Js.truthy_number (Js.float_of expires)
             && Js.lt_number (Js.float_of expires) now
          then ret false
          else ret true
      | None => ret true
      end
  end.

Definition completeServiceAuth (service : string) (oktaCookies : Json)
  : Async AuthResult :=
  match Js.get SERVICE_CONFIGS service with
  | Js.Undefined =>
      ret {| success := false;
             message := "Unknown service: " +:+ service;
             service := None; cookies := None; token := None |}
  | _ =>
      ret {| success := true;
             message := "Okta authenticated. Run service-specific auth for " +:+ service;
             service := Some service;
             cookies := Some oktaCookies;
             token := None |}
  end.

Definition okta_url : string := "https://toasttab.okta.com".

(** [SERVICE_CONFIGS[service]?.url || "https://toasttab.okta.com"]. *)
Definition service_url (service : string) : string :=
  match Js.get SERVICE_CONFIGS service with
  | Js.Own config => if Js.truthy_string (url config) then url config else okta_url
  | _ => okta_url
  end.

Definition is_okta_cookie (c : Cookie) : bool :=
  Js.includes (c_domain c) "okta.com" || Js.includes (c_domain c) "toasttab.com".

(** [chromium.launch] up to [page.context().cookies()]: one use of the
    interactive login capability. *)
Definition interactiveLogin (r : LaunchRequest) : Async (list Cookie) :=
  fun w => (browser (length (launches w)) r, with_launch r w).

Definition browserAuthenticate (service username : option string) : Async AuthResult :=
  try_catch
    (let* existingCookies := loadOktaCookies in
     let targetUrl :=
       match Js.truthy_arg service with
       | Some s => service_url s
       | None => okta_url
       end in
     let* cookies :=
       interactiveLogin
         {| seed := if Value.truthy existingCookies then Some existingCookies else None;
            targetUrl := targetUrl;
            loginName := Js.truthy_arg username |} in
     let oktaCookies := filter (fun c => is_okta_cookie c = true) cookies in
     await saveOktaCookies oktaCookies in
     await
       match Js.truthy_arg service with
       | Some s =>
           match Js.get SERVICE_CONFIGS s with
           | Js.Own config =>
               let serviceDomain := cookieDomain config in
               saveServiceCookies s
                 (filter (fun c => Js.includes (c_domain c) serviceDomain = true) cookies)
           | Js.Inherited =>
               (* the inherited member has no [cookieDomain] *)
               saveServiceCookies s
                 (filter (fun c => Js.includes (c_domain c) "undefined" = true) cookies)
           | Js.Undefined => ret tt
           end
       | None => ret tt
       end in
     ret {| success := true;
            message := match Js.truthy_arg service with
                       | Some s => "Authenticated with " +:+ s
                       | None => "Okta authentication successful"
                       end;
            service := service;
            cookies := Some (Cookies oktaCookies);
            token := None |})
    (fun error =>
       ret {| success := false;
              message := "Browser authentication failed: " +:+ Js.show_error error;
              service := None; cookies := None; token := None |}).

Definition authenticate (service username : option string) (forceRefresh : bool)
  : Async AuthResult :=
  try_catch
    (let* reused :=
       if negb forceRefresh then
         let* existingAuth := loadOktaCookies in
         if Value.truthy existingAuth then
           let* valid := validateOktaSession existingAuth in
           if valid then
             match Js.truthy_arg service with
             | Some s =>
                 let* r := completeServiceAuth s existingAuth in
                 ret (Some r)
             | None =>
                 ret (Some {| success := true;
                              message := "Okta authentication valid";
                              service := None;
                              cookies := Some existingAuth;
                              token := None |})
             end
           else ret None
         else ret None
       else ret None in
     match reused with
     | Some r => ret r
     | None => browserAuthenticate service username
     end)
    (fun error =>
       ret {| success := false;
              message := "Authentication failed: " +:+ Js.show_error error;
              service := None; cookies := None; token := None |}).

(** The loop of [checkAuthStatus] over [Object.keys(SERVICE_CONFIGS)];
    [undefined > 0] is false. *)
Fixpoint checkEachService (names : list string) (status : AuthStatus) : Async AuthStatus :=
  match names with
  | [] => ret status
  | service :: rest =>
      let* serviceCookies := loadServiceCookies service in
      let* len := Value.length serviceCookies in
      checkEachService rest
        {| okta := okta status;
           services :=
             Js.set (services status) service
               {| authenticated := okta status;
                  hasServiceCookies :=
                    match len with
                    | Some n => (0 <? n)%nat
                    | None => false
                    end |} |}
  end.

Definition checkAuthStatus : Async AuthStatus :=
  let status := {| okta := false; services := [] |} in
  let* oktaCookies := loadOktaCookies in
  let* valid :=
    if Value.truthy oktaCookies then validateOktaSession oktaCookies
    else ret false in
  let status := if valid then {| okta := true; services := services status |} else status in
  checkEachService (Js.keys SERVICE_CONFIGS) status.

Definition is_token_cookie (c : Cookie) : bool :=
  Js.includes (Js.toLowerCase (c_name c)) "token" ||
  Js.includes (Js.toLowerCase (c_name c)) "session".

(** [undefined === 0] is false. *)
Definition getServiceToken (service : string) : Async TokenResult :=
  match Js.get SERVICE_CONFIGS service with
  | Js.Undefined => throw (Js.mkError "Error" ("Unknown service: " +:+ service))
  | config =>
      let* serviceCookies := loadServiceCookies service in
      let* len := Value.length serviceCookies in
      if match len with Some n => (n =? 0)%nat | None => false end then
        ret {| t_success := false;
               t_message := Some ("No authentication found for " +:+ service);
               t_service := None; t_token := None; t_cookies := None |}
      else
        let plain :=
          {| t_success := true; t_message := None; t_service := Some service;
             t_token := None; t_cookies := Some serviceCookies |} in
        match config with
        | Js.Own config =>
            match sessionType config with
            | session_token =>
                let* tokenCookie :=
                  Value.find "serviceCookies" serviceCookies is_token_cookie in
                ret {| t_success := true; t_message := None;
                       t_service := Some service;
                       t_token := c_value <$> tokenCookie;
                       t_cookies := Some serviceCookies |}
            | session_cookie => ret plain
            end
        | _ => ret plain
        end
  end.

Definition refreshSession : Async AuthResult :=
  let* oktaCookies := loadOktaCookies in
  let* valid :=
    if Value.truthy oktaCookies then validateOktaSession oktaCookies
    else ret false in
  if valid then
    ret {| success := true; message := "Session still valid";
           service := None; cookies := Some oktaCookies; token := None |}
  else authenticate None None true.

Definition legacyPaths : Js.Obj string :=
  [ ("datahub", Path.join (Path.join home ".mcp-datahub") "cookies.json");
    ("splunk", Path.join (Path.join home ".mcp-splunk") "cookies.json");
    ("zeppelin", Path.join (Path.join home ".mcp-zeppelin") "cookies.json") ].

Definition copySession (fromService toService : string) : Async AuthResult :=
  let* oktaCookies := loadOktaCookies in
  if negb (Value.truthy oktaCookies) then
    ret {| success := false; message := "No Okta session found";
           service := None; cookies := None; token := None |}
  else
    await
      match Js.get legacyPaths toService with
      | Js.Own legacy =>
          if Js.truthy_string legacy then
            try_catch
              (let dir := Path.dirname legacy in
               await Fs.mkdir_recursive dir in
               Fs.writeFile legacy (JSON.stringify oktaCookies))
              (fun _ => ret tt)
          else ret tt
      | Js.Inherited =>
          (* [path.dirname] rejects what is not a string; the fault is
             logged and dropped *)
          try_catch
            (throw (Js.mkError "TypeError"
                      "The path argument must be of type string"))
            (fun _ => ret tt)
      | Js.Undefined => ret tt
      end in
    ret {| success := true;
           message := "Okta session copied to " +:+ toService;
           service := None; cookies := None; token := None |}.

Definition clearAuth (service : option string) : Async AuthResult :=
  let clearEverything :=
    await Fs.rm_recursive_force authDir in
    await ensureDirectories in
    ret {| success := true; message := "All authentication cleared";
           service := None; cookies := None; token := None |} in
  match Js.truthy_arg service with
  | None => clearEverything
  | Some s =>
      if String.eqb s "all" then clearEverything
      else
        let serviceFile := Path.join serviceCookieDir (s +:+ ".json") in
        await Fs.rm_force serviceFile in
        ret {| success := true;
               message := "Authentication cleared for " +:+ s;
               service := None; cookies := None; token := None |}
  end.

End Manager.
End AuthManager.

(** ** index.ts: the tool surface *)

Module Server.
Section Handler.

Variable home : string.
Variable browser : nat -> LaunchRequest -> Settled (list Cookie).

(** [request.params.arguments]; each property may be missing. *)
Record ToolArguments := {
  a_service : option string;
  a_username : option string;
  a_forceRefresh : option bool;
  a_fromService : option string;
  a_toService : option string;
}.

(** The value whose [JSON.stringify] is the text of the response. *)
Inductive Payload :=
| AuthPayload (result : AuthResult)
| StatusPayload (status : AuthStatus)
| TokenPayload (result : TokenResult)
| ServicesPayload (services : list ServiceConfig)
| ErrorPayload (message : string).     (* { error: true, message } *)

(** Reading a property of [args] when [args] itself is missing. *)
Definition args_missing (property : string) : Js.Error :=
  Js.mkError "TypeError"
    ("Cannot read properties of undefined (reading '" +:+ property +:+ "')").

(** The [switch] inside the [try] block. *)
Definition dispatch (name : string) (args : option ToolArguments) : Async Payload :=
  if String.eqb name "authenticate" then
    let* result :=
      AuthManager.authenticate home browser
        (args ≫= a_service) (args ≫= a_username)
        (default false (args ≫= a_forceRefresh)) in
    ret (AuthPayload result)
  else if String.eqb name "check_auth_status" then
    let* status := AuthManager.checkAuthStatus home in
    ret (StatusPayload status)
  else if String.eqb name "get_service_token" then
    match args with
    | None => throw (args_missing "service")
    | Some args =>
        let* token := AuthManager.getServiceToken home (Js.show_arg (a_service args)) in
        ret (TokenPayload token)
    end
  else if String.eqb name "refresh_session" then
    let* result := AuthManager.refreshSession home browser in
    ret (AuthPayload result)
  else if String.eqb name "copy_session" then
    match args with
    | None => throw (args_missing "fromService")
    | Some args =>
        let* result :=
          AuthManager.copySession home
            (Js.show_arg (a_fromService args)) (Js.show_arg (a_toService args)) in
        ret (AuthPayload result)
    end
  else if String.eqb name "clear_auth" then
    let* result := AuthManager.clearAuth home (args ≫= a_service) in
    ret (AuthPayload result)
  else if String.eqb name "list_services" then
    ret (ServicesPayload ServiceRegistry.listServices)
  else throw (Js.mkError "Error" ("Unknown tool: " +:+ name)).

(** The [CallToolRequestSchema] handler: every thrown [Error] becomes the
    structured failure payload. *)
Definition callTool (name : string) (args : option ToolArguments) : Async Payload :=
  try_catch (dispatch name args)
    (fun error => ret (ErrorPayload (Js.err_message error))).

End Handler.
End Server.

(** ** cli/status.ts *)

Module Cli.

(** [String.prototype.toUpperCase] as it acts on strings of ASCII
    characters; the tool applies it to the keys of the snapshot, which are
    the catalog's. *)
Definition upper_ascii (c : Ascii.ascii) : Ascii.ascii :=
  let n := Ascii.nat_of_ascii c in
  if (97 <=? n)%nat && (n <=? 122)%nat then Ascii.ascii_of_nat (n - 32) else c.

Fixpoint toUpperCase (s : string) : string :=
  match s with
  | EmptyString => EmptyString
  | String c rest => String (upper_ascii c) (toUpperCase rest)
  end.

(** [String.prototype.repeat]. *)
Fixpoint repeat (s : string) (n : nat) : string :=
  match n with
  | O => EmptyString
  | S n => s +:+ repeat s n
  end.

(** The line feed of an escaped string literal. *)
Definition nl : string := String (Ascii.ascii_of_nat 10) EmptyString.

(** How a template literal prints a boolean. *)
Definition show_bool (b : bool) : string := if b then "true" else "false".

Definition mark (b : bool) : string := if b then "✅" else "❌".

Definition rule : string := repeat "=" 50.

(** What a run of the tool leaves behind: the lines written with
    [console.log], the error objects handed to [console.error], and the
    exit code when [process.exit] was called. *)
Record Run := {
  stdout : list string;
  stderr : list Js.Error;
  exit : option Z;
}.

Section Tools.

Variable home : string.

(** The three lines printed for one entry of [status.services]; the
    snapshot never carries an [expiresAt]. *)
Definition service_lines (entry : string * ServiceStatus) : list string :=
  let '(service, serviceStatus) := entry in
  [ nl +:+ "  " +:+ toUpperCase service +:+ ":";
    "    " +:+ mark (authenticated serviceStatus) +:+ " Okta Auth: "
      +:+ show_bool (authenticated serviceStatus);
    "    " +:+ mark (hasServiceCookies serviceStatus) +:+ " Service Cookies: "
      +:+ show_bool (hasServiceCookies serviceStatus) ].

(** [needsAuth] of status.ts. *)
Definition needsAuth (status : AuthStatus) : bool :=
  negb (okta status) ||
  existsb (fun s => negb (authenticated s)) (Js.values (services status)).

(** [main().catch(console.error)] of status.ts: the title and the rule
    are printed before the snapshot is awaited; a rejection ends [main]
    and hands the error to [console.error]. *)
Definition status : World -> Run * World :=
  fun w =>
    let title := [ "🔍 MCP Authentication Status"; rule ] in
    match AuthManager.checkAuthStatus home w with
    | (Fulfilled status, w') =>
        ({| stdout :=
              title
              ++ [ nl +:+ "📋 Okta SSO:";
                   "  " +:+ mark (okta status) +:+ " Authenticated: "
                     +:+ show_bool (okta status);
                   nl +:+ "📦 Services:" ]
              ++ concat (map service_lines (services status))
              ++ [ nl +:+ rule ]
              ++ (if needsAuth status then
                    [ nl +:+ "💡 To authenticate, run:";
                      "   npm run auth";
                      nl +:+ "   Or for a specific service:";
                      "   npm run auth datahub";
                      "   npm run auth splunk";
                      "   npm run auth zeppelin" ]
                  else [ nl +:+ "✨ All services authenticated!" ]);
            stderr := [];
            exit := None |}, w')
    | (Rejected error, w') =>
        ({| stdout := title; stderr := [ error ]; exit := None |}, w')
    end.

End Tools.
End Cli.

(** ** Vocabulary of the properties *)

(** The instant [Date.now() / 1000] in a world. *)
Definition now (w : World) : float :=
  PrimFloat.div (Js.number_of_Z (clock w)) 1000.





(** What a record at path [p] parses to, when it is there and parses. *)
Definition stored (w : World) (p : string) : option Json :=
  match disk w !! p with
  | Some {| data := JsonOf value |} => Some value
  | _ => None
  end.

(** The record at path [p] holds the credential set [set]. *)
Definition holds (w : World) (p : string) (set : list Cookie) : Prop :=
  exists m, disk w !! p = Some {| data := JsonOf (Cookies set); mode := m |}.

(** The record at path [p] is missing, does not parse, or holds a
    credential set: it is what the manager itself leaves on disk. *)
Definition well_formed_at (w : World) (p : string) : Prop :=
  match disk w !! p with
  | None => True
  | Some {| data := Unparseable |} => True
  | Some {| data := JsonOf (Cookies _) |} => True
  | Some _ => False
  end.

(** Where the records live, path by path. *)
Definition okta_record (home : string) : string :=
  home +:+ "/.mcp-auth/okta-cookies.json".

Definition service_record (home service : string) : string :=
  home +:+ "/.mcp-auth/services/" +:+ service +:+ ".json".

(** Every record [checkAuthStatus] reads is well formed. *)
Definition well_formed_store (home : string) (w : World) : Prop :=
  well_formed_at w (okta_record home) /\
  Forall (fun key => well_formed_at w (service_record home key))
    [ "datahub"; "splunk"; "zeppelin" ].

(** The credentials of a value, when it is a credential set. *)
Definition cookies_of (value : Json) : list Cookie :=
  match value with
  | Cookies cookies => cookies
  | _ => []
  end.

(** A credential set with at least one credential. *)
Definition nonempty {A} (l : list A) : bool :=
  match l with [] => false | _ :: _ => true end.

(** A string of ASCII characters. *)
Fixpoint ascii_only (s : string) : bool :=
  match s with
  | EmptyString => true
  | String c rest => (Ascii.nat_of_ascii c <? 128)%nat && ascii_only rest
  end.




(** The page a login for a service starts at: the service's own page for
    the three catalog services, the identity provider's otherwise. *)
Definition start_page (service : option string) : string :=
  match service with
  | Some s =>
      if String.eqb s "datahub" then "https://datahub.eng.toasttab.com"
      else if String.eqb s "splunk" then "https://toast.splunkcloud.com"
      else if String.eqb s "zeppelin" then "https://zeppelin-okta.eng.toasttab.com"
      else "https://toasttab.okta.com"
  | None => "https://toasttab.okta.com"
  end.

(** What a browser is seeded with: the stored value, when it is truthy. *)
Definition seed_of (stored : option Json) : option Json :=
  match stored with
  | Some value => if Value.truthy value then Some value else None
  | None => None
  end.

(** The request [browserAuthenticate] makes of the browser: seeded with
    the stored identity-provider set, aimed at the service's page when the
    catalog has one and at the identity provider otherwise. *)
Definition login_request (home : string) (service username : option string)
    (w : World) : LaunchRequest :=
  {| seed := seed_of (stored w (okta_record home));
     targetUrl := start_page service;
     loginName := Js.truthy_arg username |}.

(** A cookie of the identity provider: its domain contains "okta.com" or
    "toasttab.com". *)
Definition identity_provider_cookie (c : Cookie) : bool :=
  Js.includes (c_domain c) "okta.com" || Js.includes (c_domain c) "toasttab.com".

(** The mode of the file at a path. *)
Definition mode_of (w : World) (p : string) : option N :=
  mode <$> disk w !! p.

(** No usable session is stored: the identity-provider record is missing
    or unreadable, holds a falsy value, or holds a credential set that the
    validator turns down. *)
Definition no_valid_session (home : string) (w : World) : Prop :=
  match stored w (AuthManager.oktaCookieFile home) with
  | None => True
  | Some (Cookies set) =>
      AuthManager.validateOktaSession (Cookies set) w = (Fulfilled false, w)
  | Some value => Value.truthy value = false
  end.

(** The world once everything under [~/.mcp-auth] is removed. *)
Definition cleared (home : string) (w : World) : World :=
  with_disk (filter (fun kv => Fs.under (AuthManager.authDir home) kv.1 = false) (disk w)) w.

(** ** Sample data *)

(** A home directory. *)
Definition home0 : string := "/home/user".

(** The instants 100 and 200. *)
Definition instant_100 : Js.Number := Js.mkNumber 100 eq_refl.
Definition instant_200 : Js.Number := Js.mkNumber 200 eq_refl.

(** A marker that expires at the instant 100. *)
Definition marker_expiring_at_100 : Cookie :=
  {| c_name := "idx"; c_value := "s1"; c_domain := "toasttab.okta.com";
     c_path := "/"; c_expires := Some instant_100; c_httpOnly := Some true;
     c_secure := Some true; c_sameSite := Some "None" |}.

(** A marker whose expiry is the double nearest to 1767225600.001. *)
Definition marker_expiring_in_2026 : Cookie :=
  {| c_name := "JSESSIONID"; c_value := "s2"; c_domain := "toasttab.okta.com";
     c_path := "/"; c_expires := Some (Js.mkNumber 0x1.a556e40001062p+30 eq_refl);
     c_httpOnly := Some true; c_secure := Some true; c_sameSite := None |}.

(** A marker without expiry, a token-like credential, one that is
    neither, and a cookie of the [datahub] service. *)
Definition session_cookie0 : Cookie :=
  {| c_name := "JSESSIONID"; c_value := "abc"; c_domain := "toasttab.okta.com";
     c_path := "/"; c_expires := None; c_httpOnly := Some true;
     c_secure := Some true; c_sameSite := None |}.

Definition token_cookie0 : Cookie :=
  {| c_name := "Splunk_Session_Token"; c_value := "tok-42";
     c_domain := "toast.splunkcloud.com"; c_path := "/";
     c_expires := Some instant_200; c_httpOnly := None; c_secure := Some true;
     c_sameSite := Some "Lax" |}.

Definition plain_cookie0 : Cookie :=
  {| c_name := "csrf"; c_value := "x9"; c_domain := "toast.splunkcloud.com";
     c_path := "/"; c_expires := None; c_httpOnly := None; c_secure := None;
     c_sameSite := None |}.

Definition datahub_cookie0 : Cookie :=
  {| c_name := "PLAY_SESSION"; c_value := "dh-7";
     c_domain := "datahub.eng.toasttab.com"; c_path := "/";
     c_expires := None; c_httpOnly := Some true; c_secure := Some true;
     c_sameSite := None |}.

(** A browser whose session always ends with one session cookie. *)
Definition browser0 : nat -> LaunchRequest -> Settled (list Cookie) :=
  fun _ _ => Fulfilled [session_cookie0].

(** The catalog entry of [splunk]. *)
Definition splunk_config : ServiceConfig :=
  {| name := "Splunk Cloud";
     url := "https://toast.splunkcloud.com";
     cookieDomain := "toast.splunkcloud.com";
     sessionType := session_token;
     description := "Log aggregation and monitoring";
     legacyPath := Some "~/.mcp-splunk/cookies.json" |}.

(** Tool arguments that give the [service] property only. *)
Definition just_service (k : string) : Server.ToolArguments :=
  {| Server.a_service := Some k; Server.a_username := None;
     Server.a_forceRefresh := None; Server.a_fromService := None;
     Server.a_toService := None |}.

(** An empty store at a given time. *)
Definition world_at (ms : Z) : World :=
  {| disk := ∅; launches := []; clock := ms |}.

(** A store holding a valid identity-provider set and nothing else. *)
Definition world_with_session : World :=
  {| disk := {[ AuthManager.oktaCookieFile home0 :=
                  {| data := JsonOf (Cookies [session_cookie0]); mode := 384 |} ]};
     launches := [];
     clock := 1000 |}.

(** A store whose identity-provider record holds a JSON object where a
    cookie array belongs. *)
Definition world_with_object : World :=
  {| disk := {[ AuthManager.oktaCookieFile home0 :=
                  {| data := JsonOf JObject; mode := 384 |} ]};
     launches := [];
     clock := 1000 |}.

(** The scenario of the specification: a valid identity-provider set and a
    non-empty [datahub] scope. *)
Definition world_scenario : World :=
  {| disk := {[ AuthManager.oktaCookieFile home0 :=
                  {| data := JsonOf (Cookies [session_cookie0]); mode := 384 |};
                AuthManager.serviceFile home0 "datahub" :=
                  {| data := JsonOf (Cookies [token_cookie0]); mode := 384 |} ]};
     launches := [];
     clock := 1000 |}.

(** A store with a valid identity-provider set and records for [datahub]
    and [splunk]. *)
Definition world_with_services : World :=
  {| disk := {[ AuthManager.oktaCookieFile home0 :=
                  {| data := JsonOf (Cookies [session_cookie0]); mode := 384 |};
                AuthManager.serviceFile home0 "datahub" :=
                  {| data := JsonOf (Cookies [token_cookie0]); mode := 384 |};
                AuthManager.serviceFile home0 "splunk" :=
                  {| data := JsonOf (Cookies [session_cookie0; token_cookie0]);
                     mode := 384 |} ]};
     launches := [];
     clock := 1000 |}.

(** A store whose only record is the [splunk] scope. *)
Definition world_with_tokens (set : list Cookie) : World :=
  {| disk := {[ AuthManager.serviceFile home0 "splunk" :=
                  {| data := JsonOf (Cookies set); mode := 384 |} ]};
     launches := [];
     clock := 1000 |}.

(** A browser session that ends with three cookies, one that ends with
    cookies of the identity provider, of [datahub] and of [splunk], and one
    in which the two-minute wait for the login page to clear runs out. *)
Definition browser_capturing : nat -> LaunchRequest -> Settled (list Cookie) :=
  fun _ _ => Fulfilled [session_cookie0; token_cookie0; plain_cookie0].

Definition browser_capturing_datahub : nat -> LaunchRequest -> Settled (list Cookie) :=
  fun _ _ => Fulfilled [session_cookie0; datahub_cookie0; token_cookie0].

Definition browser_timing_out : nat -> LaunchRequest -> Settled (list Cookie) :=
  fun _ _ => Rejected (Js.mkError "TimeoutError" "Timeout 120000ms exceeded.").

(** The catalog entry of [datahub]. *)
Definition datahub_config : ServiceConfig :=
  {| name := "DataHub";
     url := "https://datahub.eng.toasttab.com";
     cookieDomain := "datahub.eng.toasttab.com";
     sessionType := session_cookie;
     description := "Toast's metadata platform";
     legacyPath := Some "~/.mcp-datahub/cookies.json" |}.

(** * Properties *)

(** Case analysis on a key known to be one of the catalog's. *)
Ltac catalog_key H :=
  simpl in H; destruct H as [<-|[<-|[<-|[]]]].

(** ** Basic facts about the JavaScript layer *)




(** ** The session validator *)



(** On a credential set the validator reads the clock and nothing else:
    it settles with a boolean and leaves the world as it was. *)
Lemma validateOktaSession_total (S : list Cookie) (w : World) :
  exists b, AuthManager.validateOktaSession (Cookies S) w = (Fulfilled b, w).
Proof.
  unfold AuthManager.validateOktaSession, bind, Date_now, Value.find, ret.
  destruct (find _ S) as [c|]; [|eauto].
  destruct (c_expires c) as [e|]; [|eauto].
  destruct (_ && _); eauto.
Qed.

(** On a value that is no array the validator faults. *)
Lemma validateOktaSession_not_array (v : Json) (w : World) :
  (forall S, v <> Cookies S) ->
  exists e, AuthManager.validateOktaSession v w = (Rejected e, w)
            /\ Js.err_name e = "TypeError".
Proof.
  intros N. unfold AuthManager.validateOktaSession, bind, Date_now, Value.find, throw.
  destruct v as [S| | | | |]; try (eexists; split; reflexivity). by destruct (N S).
Qed.




(** A marker that expires one second before now is turned down, one
    that expires one second after now is accepted. *)
Example validateOktaSession_around_now :
  AuthManager.validateOktaSession (Cookies [marker_expiring_at_100]) (world_at 101000)
  = (Fulfilled false, world_at 101000) /\
  AuthManager.validateOktaSession (Cookies [marker_expiring_at_100]) (world_at 99000)
  = (Fulfilled true, world_at 99000).
Proof. split; vm_compute; reflexivity. Qed.

(** The division is the one of doubles: 1767225600001 milliseconds make
    the double nearest to 1767225600.001 seconds, so a marker expiring at
    that double is not yet before now. *)
Example validateOktaSession_rounded_now :
  AuthManager.validateOktaSession (Cookies [marker_expiring_in_2026])
    (world_at 1767225600001)
  = (Fulfilled true, world_at 1767225600001).
Proof. vm_compute. reflexivity. Qed.

(** ** The credential store *)

Section Store.

Variable home : string.

(** Loading fails soft and never writes. *)
Lemma loadOktaCookies_eq (w : World) :
  AuthManager.loadOktaCookies home w
  = (Fulfilled (default JNull (stored w (AuthManager.oktaCookieFile home))), w).
Proof.
  unfold AuthManager.loadOktaCookies, try_catch, bind, Fs.readFile, stored.
  destruct (disk w !! AuthManager.oktaCookieFile home) as [[[|v] m]|]; reflexivity.
Qed.

Lemma loadServiceCookies_eq (service : string) (w : World) :
  AuthManager.loadServiceCookies home service w
  = (Fulfilled (default (Cookies []) (stored w (AuthManager.serviceFile home service))), w).
Proof.
  unfold AuthManager.loadServiceCookies, try_catch, bind, Fs.readFile, stored.
  destruct (disk w !! AuthManager.serviceFile home service) as [[[|v] m]|]; reflexivity.
Qed.

(** Saving writes the record and then restricts it to its owner. *)
Lemma saveOktaCookies_eq (cookies : list Cookie) (w : World) :
  AuthManager.saveOktaCookies home cookies w
  = (Fulfilled tt,
     with_disk (<[AuthManager.oktaCookieFile home :=
                   {| data := JsonOf (Cookies cookies); mode := 384 |}]> (disk w)) w).
Proof.
  unfold AuthManager.saveOktaCookies, bind, Fs.writeFile, Fs.chmod, with_disk; simpl.
  rewrite lookup_insert_eq; simpl. by rewrite insert_insert_eq.
Qed.

Lemma saveServiceCookies_eq (service : string) (cookies : list Cookie) (w : World) :
  AuthManager.saveServiceCookies home service cookies w
  = (Fulfilled tt,
     with_disk (<[AuthManager.serviceFile home service :=
                   {| data := JsonOf (Cookies cookies); mode := 384 |}]> (disk w)) w).
Proof.
  unfold AuthManager.saveServiceCookies, bind, Fs.writeFile, Fs.chmod, with_disk; simpl.
  rewrite lookup_insert_eq; simpl. by rewrite insert_insert_eq.
Qed.

End Store.

Section StoreRoundTrip.

Variable home : string.

Lemma stored_with_disk_insert (w : World) (p : string) (v : Json) (m : N) :
  stored (with_disk (<[p := {| data := JsonOf v; mode := m |}]> (disk w)) w) p = Some v.
Proof. unfold stored, with_disk; simpl. by rewrite lookup_insert_eq. Qed.

(** C8: in either kind of scope, the identity-provider scope and the scope
    of a catalog service, saving a credential set and loading the scope
    right after gives back that set, credential by credential in the same
    order. *)
Theorem C8_save_then_load (service : string) (set : list Cookie) (w : World) :
  In service (Js.keys SERVICE_CONFIGS) ->
  (exists w',
     (await AuthManager.saveOktaCookies home set in
      AuthManager.loadOktaCookies home) w = (Fulfilled (Cookies set), w')) /\
  (exists w',
     (await AuthManager.saveServiceCookies home service set in
      AuthManager.loadServiceCookies home service) w = (Fulfilled (Cookies set), w')).
Proof.
  intros _. split; eexists; unfold bind.
  - rewrite saveOktaCookies_eq, loadOktaCookies_eq.
    by rewrite stored_with_disk_insert.
  - rewrite saveServiceCookies_eq, loadServiceCookies_eq.
    by rewrite stored_with_disk_insert.
Qed.

End StoreRoundTrip.

Lemma C8_save_then_load_witness :
  (exists w',
     (await AuthManager.saveOktaCookies home0 [session_cookie0; token_cookie0] in
      AuthManager.loadOktaCookies home0) (world_at 0)
     = (Fulfilled (Cookies [session_cookie0; token_cookie0]), w')) /\
  (exists w',
     (await AuthManager.saveServiceCookies home0 "datahub" [session_cookie0; token_cookie0] in
      AuthManager.loadServiceCookies home0 "datahub") (world_at 0)
     = (Fulfilled (Cookies [session_cookie0; token_cookie0]), w')).
Proof.
  apply (C8_save_then_load home0 "datahub"). simpl. tauto.
Defined.

(** ** Catalog lookups *)

Lemma own_in_keys {A} (o : Js.Obj A) (k : string) :
  In k (Js.keys o) <-> exists a, Js.own o k = Some a.
Proof.
  induction o as [|[k' a'] o IH]; simpl.
  - split; [tauto|]. intros [a E]; discriminate.
  - destruct (String.eqb k' k) eqn:E.
    + apply String.eqb_eq in E. split; eauto.
    + apply String.eqb_neq in E. rewrite <- IH. tauto.
Qed.

Lemma get_own {A} (o : Js.Obj A) (k : string) (a : A) :
  Js.own o k = Some a -> Js.get o k = Js.Own a.
Proof. unfold Js.get. by intros ->. Qed.

Lemma get_undefined {A} (o : Js.Obj A) (k : string) :
  Js.get o k = Js.Undefined <->
  ~ In k (Js.keys o) /\ ~ In k Js.Object_prototype_names.
Proof.
  unfold Js.get. rewrite own_in_keys.
  assert (Js.inherited k = true <-> In k Js.Object_prototype_names) as Inh.
  { unfold Js.inherited. rewrite existsb_exists. split.
    - intros (x & Hx & E). apply String.eqb_eq in E. by subst.
    - intros H. exists k. split; [done|]. by apply String.eqb_eq. }
  destruct (Js.own o k) as [a|].
  - split; [discriminate|]. intros [N _]. destruct N; eauto.
  - destruct (Js.inherited k).
    + split; [discriminate|]. intros [_ N]. destruct N. by apply Inh.
    + split; [|done]. intros _. split.
      * intros [a E]; discriminate.
      * intros H. apply Inh in H. discriminate.
Qed.

(** ** Reusing a stored session *)

(** C2, as stated, fails: with a valid identity-provider set in store and
    [forceRefresh] false, a service key that the catalog does not know is
    given, and the result is a failure, not a success. *)
Lemma C2_unknown_service_is_refused :
  AuthManager.loadOktaCookies home0 world_with_session
    = (Fulfilled (Cookies [session_cookie0]), world_with_session) /\
  AuthManager.validateOktaSession (Cookies [session_cookie0]) world_with_session
    = (Fulfilled true, world_with_session) /\
  AuthManager.authenticate home0 browser0 (Some "foo") None false world_with_session
    = (Fulfilled {| success := false; message := "Unknown service: foo";
                    service := None; cookies := None; token := None |},
       world_with_session).
Proof.
  repeat split; vm_compute; reflexivity.
Qed.

Section Reuse.

Variable home : string.
Variable browser : nat -> LaunchRequest -> Settled (list Cookie).

(** C2, amended: with [forceRefresh] false and a stored identity-provider
    set that the validator accepts, [authenticate] settles in the very world
    it started in, so no browser was launched and nothing was written. For
    a catalog key the result is the success that is ready for
    service-specific completion and carries the existing set; for a key the
    catalog lookup does not find the result is the failure "Unknown
    service"; with no key (or an empty one) it is success with the existing
    set. *)
Theorem C2_authenticate_reuses_session
    (service username : option string) (set : list Cookie) (w : World) :
  AuthManager.loadOktaCookies home w = (Fulfilled (Cookies set), w) ->
  AuthManager.validateOktaSession (Cookies set) w = (Fulfilled true, w) ->
  exists r,
    AuthManager.authenticate home browser service username false w = (Fulfilled r, w) /\
    match Js.truthy_arg service with
    | None =>
        r = {| success := true; message := "Okta authentication valid";
               service := None; cookies := Some (Cookies set); token := None |}
    | Some s =>
        (In s (Js.keys SERVICE_CONFIGS) ->
         r = {| success := true;
                message := "Okta authenticated. Run service-specific auth for " +:+ s;
                service := Some s; cookies := Some (Cookies set); token := None |}) /\
        (Js.get SERVICE_CONFIGS s = Js.Undefined ->
         r = {| success := false; message := "Unknown service: " +:+ s;
                service := None; cookies := None; token := None |})
    end.
Proof.
  intros Hload Hvalid.
  unfold AuthManager.authenticate, try_catch, bind; simpl.
  rewrite Hload; simpl. rewrite Hvalid.
  destruct (Js.truthy_arg service) as [s|]; [|eexists; split; reflexivity].
  unfold AuthManager.completeServiceAuth, ret.
  destruct (Js.get SERVICE_CONFIGS s) as [cfg| |] eqn:G;
    eexists; (split; [reflexivity|]); split; intros H; try reflexivity; try discriminate.
  apply get_undefined in G as [N _]. destruct N. exact H.
Qed.

End Reuse.

Lemma C2_authenticate_reuses_session_witness :
  exists r,
    AuthManager.authenticate home0 browser0 (Some "splunk") (Some "ann") false
      world_with_session = (Fulfilled r, world_with_session) /\
    (In "splunk" (Js.keys SERVICE_CONFIGS) ->
     r = {| success := true;
            message := "Okta authenticated. Run service-specific auth for " +:+ "splunk";
            service := Some "splunk"; cookies := Some (Cookies [session_cookie0]);
            token := None |}) /\
    (Js.get SERVICE_CONFIGS "splunk" = Js.Undefined ->
     r = {| success := false; message := "Unknown service: " +:+ "splunk";
            service := None; cookies := None; token := None |}).
Proof.
  apply (C2_authenticate_reuses_session home0 browser0 (Some "splunk") (Some "ann")
           [session_cookie0] world_with_session);
    vm_compute; reflexivity.
Defined.

(** ** Where the records live *)

Lemma append_assoc (a b c : string) : (a +:+ b) +:+ c = a +:+ (b +:+ c).
Proof.
  induction a as [|x a IH]; [reflexivity|].
  change (String x ((a +:+ b) +:+ c) = String x (a +:+ (b +:+ c))).
  by rewrite IH.
Qed.

(** The record paths, written from the home directory outwards. *)
Lemma oktaCookieFile_eq (home : string) :
  AuthManager.oktaCookieFile home = home +:+ "/.mcp-auth/okta-cookies.json".
Proof.
  unfold AuthManager.oktaCookieFile, AuthManager.authDir, Path.join.
  by rewrite !append_assoc.
Qed.

Lemma serviceFile_eq (home service : string) :
  AuthManager.serviceFile home service
  = home +:+ "/.mcp-auth/services/" +:+ service +:+ ".json".
Proof.
  unfold AuthManager.serviceFile, AuthManager.serviceCookieDir,
    AuthManager.authDir, Path.join.
  by rewrite !append_assoc.
Qed.

(** ** The status snapshot *)

Section Status.

Variable home : string.

Lemma length_positive {A} (l : list A) : (0 <? length l)%nat = nonempty l.
Proof. by destruct l. Qed.

(** What a well-formed record reads as. *)
Lemma well_formed_stored (w : World) (p : string) :
  well_formed_at w p ->
  stored w p = None \/ exists set, stored w p = Some (Cookies set) /\ holds w p set.
Proof.
  unfold well_formed_at, stored, holds.
  destruct (disk w !! p) as [[[|[set| | | | |]] m]|]; try tauto; try (by left).
  intros _. right. exists set. eauto.
Qed.

Lemma holds_stored (w : World) (p : string) (set : list Cookie) :
  holds w p set <-> stored w p = Some (Cookies set).
Proof.
  unfold holds, stored. split.
  - by intros [m ->].
  - destruct (disk w !! p) as [[[|v] m]|]; try discriminate.
    intros [= ->]. eauto.
Qed.

(** Over records that are credential sets (or missing), the loop writes
    one entry per name, each mirroring the flag it was started with, and
    leaves the world alone. *)
Lemma checkEachService_eq (names : list string) (st : AuthStatus) (w : World) :
  Forall (fun s => well_formed_at w (AuthManager.serviceFile home s)) names ->
  AuthManager.checkEachService home names st w
  = (Fulfilled
       {| okta := okta st;
          services :=
            fold_left
              (fun o s =>
                 Js.set o s
                   {| authenticated := okta st;
                      hasServiceCookies :=
                        nonempty (cookies_of (default (Cookies [])
                          (stored w (AuthManager.serviceFile home s)))) |})
              names (services st) |}, w).
Proof.
  revert st. induction names as [|s names IH]; intros st WF; simpl.
  - unfold ret. by destruct st.
  - inversion WF as [|? ? Hs Hrest]; subst.
    unfold bind. rewrite loadServiceCookies_eq.
    destruct (well_formed_stored w _ Hs) as [->|(set & -> & _)]; simpl;
      rewrite IH by exact Hrest; simpl; by rewrite ?length_positive.
Qed.

(** The snapshot of a well-formed store, entry by entry. *)
Lemma checkAuthStatus_eq (w : World) :
  well_formed_store home w ->
  exists b,
    AuthManager.checkAuthStatus home w
    = (Fulfilled
         {| okta := b;
            services :=
              map (fun s =>
                     (s, {| authenticated := b;
                            hasServiceCookies :=
                              nonempty (cookies_of (default (Cookies [])
                                (stored w (AuthManager.serviceFile home s)))) |}))
                  [ "datahub"; "splunk"; "zeppelin" ] |}, w) /\
    (b = true <->
     exists set, holds w (okta_record home) set /\
       AuthManager.validateOktaSession (Cookies set) w = (Fulfilled true, w)).
Proof.
  intros [WFo WFs]. unfold okta_record in *. rewrite <- oktaCookieFile_eq in *.
  unfold AuthManager.checkAuthStatus, bind. rewrite loadOktaCookies_eq.
  assert (exists b,
            (if Value.truthy (default JNull (stored w (AuthManager.oktaCookieFile home)))
             then AuthManager.validateOktaSession
                    (default JNull (stored w (AuthManager.oktaCookieFile home)))
             else ret false) w = (Fulfilled b, w) /\
            (b = true <->
             exists set, holds w (AuthManager.oktaCookieFile home) set /\
               AuthManager.validateOktaSession (Cookies set) w = (Fulfilled true, w)))
    as (b & -> & Hb).
  { destruct (well_formed_stored w _ WFo) as [E|(set & E & H)]; rewrite E; simpl.
    - exists false. split; [done|]. split; [discriminate|].
      intros (set & H & _). apply holds_stored in H. congruence.
    - destruct (validateOktaSession_total set w) as [b Eb]. exists b. split; [done|].
      split.
      + intros ->. eauto.
      + intros (set' & H' & E'). apply holds_stored in H'.
        assert (set' = set) as -> by congruence. congruence. }
  exists b. split; [|exact Hb].
  rewrite checkEachService_eq.
  - by destruct b.
  - eapply Forall_impl; [exact WFs|]. intros s Hs; simpl in Hs.
    unfold service_record in Hs. by rewrite serviceFile_eq.
Qed.


End Status.



Example checkAuthStatus_scenario :
  AuthManager.checkAuthStatus home0 world_scenario
  = (Fulfilled
       {| okta := true;
          services :=
            [ ("datahub", {| authenticated := true; hasServiceCookies := true |});
              ("splunk", {| authenticated := true; hasServiceCookies := false |});
              ("zeppelin", {| authenticated := true; hasServiceCookies := false |}) ] |},
     world_scenario).
Proof. vm_compute. reflexivity. Qed.

(** ** Copying the session *)

Section Copy.

Variable home : string.


(** C9: with an identity-provider set in store and a destination key that
    is none of [datahub], [splunk], [zeppelin] (whether or not the catalog
    knows it), [copySession] settles with a success whose message says the
    session was copied to that key, the world is unchanged (nothing was
    written), and the outcome is the same for any source key. *)
Theorem C9_copySession_outside_legacy
    (fromService fromService' toService : string) (set : list Cookie) (w : World) :
  AuthManager.loadOktaCookies home w = (Fulfilled (Cookies set), w) ->
  ~ In toService ["datahub"; "splunk"; "zeppelin"] ->
  AuthManager.copySession home fromService toService w
  = (Fulfilled {| success := true;
                  message := "Okta session copied to " +:+ toService;
                  service := None; cookies := None; token := None |}, w) /\
  AuthManager.copySession home fromService' toService w
  = AuthManager.copySession home fromService toService w.
Proof.
  intros H N. split; [|reflexivity].
  unfold AuthManager.copySession, bind. rewrite H.
  assert (Js.own (AuthManager.legacyPaths home) toService = None) as O.
  { destruct (Js.own _ toService) as [p|] eqn:E; [|done].
    destruct N. apply (own_in_keys (AuthManager.legacyPaths home)). eauto. }
  unfold Js.get. rewrite O. by destruct (Js.inherited toService).
Qed.

End Copy.


Lemma C9_copySession_outside_legacy_witness :
  AuthManager.copySession home0 "datahub" "constructor" world_with_session
  = (Fulfilled {| success := true;
                  message := "Okta session copied to " +:+ "constructor";
                  service := None; cookies := None; token := None |},
     world_with_session) /\
  AuthManager.copySession home0 "zeppelin" "constructor" world_with_session
  = AuthManager.copySession home0 "datahub" "constructor" world_with_session.
Proof.
  apply (C9_copySession_outside_legacy home0 "datahub" "zeppelin" "constructor"
           [session_cookie0] world_with_session).
  - vm_compute. reflexivity.
  - simpl. intros [H|[H|[H|[]]]]; discriminate H.
Defined.

(** Inside the legacy mapping the set is written to the legacy file. *)
Example copySession_to_splunk :
  exists w',
    AuthManager.copySession home0 "datahub" "splunk" world_with_session
    = (Fulfilled {| success := true; message := "Okta session copied to splunk";
                    service := None; cookies := None; token := None |}, w') /\
    stored w' "/home/user/.mcp-splunk/cookies.json" = Some (Cookies [session_cookie0]).
Proof. eexists. split; vm_compute; reflexivity. Qed.

(** ** Clearing one scope *)

Section Clear.

Variable home : string.

Lemma serviceFile_not_okta (s : string) :
  AuthManager.serviceFile home s <> AuthManager.oktaCookieFile home.
Proof.
  rewrite serviceFile_eq, oktaCookieFile_eq. intros E.
  apply (inj (String.app home)) in E. vm_compute in E. discriminate E.
Qed.

Lemma serviceFile_catalog_inj (s s' : string) :
  In s (Js.keys SERVICE_CONFIGS) -> In s' (Js.keys SERVICE_CONFIGS) ->
  AuthManager.serviceFile home s = AuthManager.serviceFile home s' -> s = s'.
Proof.
  rewrite !serviceFile_eq. intros Hs Hs' E.
  apply (inj (String.app home)) in E.
  catalog_key Hs; catalog_key Hs';
    try reflexivity; vm_compute in E; discriminate E.
Qed.

Lemma stored_delete_ne (w : World) (p q : string) :
  p <> q -> stored (with_disk (delete p (disk w)) w) q = stored w q.
Proof. intros N. unfold stored, with_disk; simpl. by rewrite lookup_delete_ne. Qed.

(** C7: for a catalog key [s], [clearAuth(s)] succeeds whether or not
    scope [s] has a record, leaves scope [s] without a record, and changes
    no other file: the identity-provider scope and the scope of every other
    catalog key [s'] load the same set after the call as before it. *)
Theorem C7_clearAuth_one_scope (s s' : string) (w : World) :
  In s (Js.keys SERVICE_CONFIGS) ->
  In s' (Js.keys SERVICE_CONFIGS) ->
  s' <> s ->
  exists r w',
    AuthManager.clearAuth home (Some s) w = (Fulfilled r, w') /\
    success r = true /\
    disk w' !! AuthManager.serviceFile home s = None /\
    (forall p, p <> AuthManager.serviceFile home s -> disk w' !! p = disk w !! p) /\
    (AuthManager.loadServiceCookies home s w').1 = Fulfilled (Cookies []) /\
    (AuthManager.loadOktaCookies home w').1 = (AuthManager.loadOktaCookies home w).1 /\
    (AuthManager.loadServiceCookies home s' w').1
    = (AuthManager.loadServiceCookies home s' w).1.
Proof.
  intros Hs Hs' Hne.
  assert (AuthManager.clearAuth home (Some s) w
          = (Fulfilled {| success := true;
                          message := "Authentication cleared for " +:+ s;
                          service := None; cookies := None; token := None |},
             with_disk (delete (AuthManager.serviceFile home s) (disk w)) w)) as ->.
  { catalog_key Hs; reflexivity. }
  do 2 eexists. split; [reflexivity|]. split; [reflexivity|].
  rewrite !loadServiceCookies_eq, !loadOktaCookies_eq; simpl.
  repeat split.
  - apply lookup_delete_eq.
  - intros p Hp. by apply lookup_delete_ne.
  - unfold stored; simpl. by rewrite lookup_delete_eq.
  - do 2 f_equal. apply stored_delete_ne, serviceFile_not_okta.
  - do 2 f_equal. apply stored_delete_ne. intros E.
    apply Hne. symmetry. by apply serviceFile_catalog_inj.
Qed.

End Clear.

Lemma C7_clearAuth_one_scope_witness :
  exists r w',
    AuthManager.clearAuth home0 (Some "datahub") world_with_services = (Fulfilled r, w') /\
    success r = true /\
    disk w' !! AuthManager.serviceFile home0 "datahub" = None /\
    (forall p, p <> AuthManager.serviceFile home0 "datahub" ->
               disk w' !! p = disk world_with_services !! p) /\
    (AuthManager.loadServiceCookies home0 "datahub" w').1 = Fulfilled (Cookies []) /\
    (AuthManager.loadOktaCookies home0 w').1
    = (AuthManager.loadOktaCookies home0 world_with_services).1 /\
    (AuthManager.loadServiceCookies home0 "splunk" w').1
    = (AuthManager.loadServiceCookies home0 "splunk" world_with_services).1.
Proof.
  apply (C7_clearAuth_one_scope home0 "datahub" "splunk" world_with_services).
  - simpl. tauto.
  - simpl. tauto.
  - discriminate.
Defined.

Example clearAuth_datahub_keeps_splunk :
  exists r w',
    AuthManager.clearAuth home0 (Some "datahub") world_with_services = (Fulfilled r, w') /\
    AuthManager.loadServiceCookies home0 "datahub" w' = (Fulfilled (Cookies []), w') /\
    AuthManager.loadServiceCookies home0 "splunk" w'
    = (Fulfilled (Cookies [session_cookie0; token_cookie0]), w').
Proof. do 2 eexists. repeat split; vm_compute; reflexivity. Qed.


(** ** Tokens of a service *)

Lemma prefix_spec (needle hay : string) :
  String.prefix needle hay = true <-> exists rest, hay = needle +:+ rest.
Proof.
  revert hay. induction needle as [|x needle IH]; intros hay.
  - split; [|by destruct hay]. intros _. by exists hay.
  - destruct hay as [|y hay]; simpl.
    + split; [discriminate|]. intros [rest E]. discriminate E.
    + destruct (Ascii.ascii_dec x y) as [->|N].
      * rewrite IH. split; intros [rest E]; exists rest.
        -- by rewrite E.
        -- by injection E.
      * split; [discriminate|]. intros [rest E]. injection E as -> _. by destruct N.
Qed.











Section Token.

Variable home : string.


(** A key that no property read finds is refused with an [Error], which
    the tool surface hands to its caller as the failure payload. *)
Lemma getServiceToken_unknown (k : string) (w : World) :
  Js.get SERVICE_CONFIGS k = Js.Undefined ->
  AuthManager.getServiceToken home k w
  = (Rejected (Js.mkError "Error" ("Unknown service: " +:+ k)), w).
Proof. unfold AuthManager.getServiceToken. by intros ->. Qed.

End Token.

Lemma callTool_unknown_service
    (home : string) (browser : nat -> LaunchRequest -> Settled (list Cookie))
    (k : string) (w : World) :
  ~ In k (Js.keys SERVICE_CONFIGS) ->
  ~ In k Js.Object_prototype_names ->
  Server.callTool home browser "get_service_token" (Some (just_service k)) w
  = (Fulfilled (Server.ErrorPayload ("Unknown service: " +:+ k)), w).
Proof.
  intros N1 N2.
  unfold Server.callTool, Server.dispatch, try_catch, bind; simpl.
  rewrite getServiceToken_unknown; [reflexivity|].
  by apply get_undefined.
Qed.


Example getServiceToken_first_match :
  AuthManager.getServiceToken home0 "splunk"
    (world_with_tokens [plain_cookie0; token_cookie0; session_cookie0])
  = (Fulfilled {| t_success := true; t_message := None; t_service := Some "splunk";
                  t_token := Some "tok-42";
                  t_cookies := Some (Cookies [plain_cookie0; token_cookie0; session_cookie0]) |},
     world_with_tokens [plain_cookie0; token_cookie0; session_cookie0]).
Proof. vm_compute. reflexivity. Qed.

Example getServiceToken_no_match :
  AuthManager.getServiceToken home0 "splunk" (world_with_tokens [plain_cookie0])
  = (Fulfilled {| t_success := true; t_message := None; t_service := Some "splunk";
                  t_token := None; t_cookies := Some (Cookies [plain_cookie0]) |},
     world_with_tokens [plain_cookie0]).
Proof. vm_compute. reflexivity. Qed.

(** ** Keys the catalog does not list *)

(** C4, at the key [constructor]: the key is not in the catalog, yet the
    property read [SERVICE_CONFIGS[service]] finds the member every object
    literal inherits, the guard does not fire, and [getServiceToken] settles
    with an ordinary result (here "No authentication found"), which the tool
    surface passes on as a token payload instead of the failure payload for
    an unknown service. *)
Theorem C4_inherited_key_not_refused :
  ~ In "constructor" (Js.keys SERVICE_CONFIGS) /\
  AuthManager.getServiceToken home0 "constructor" (world_at 0)
  = (Fulfilled {| t_success := false;
                  t_message := Some "No authentication found for constructor";
                  t_service := None; t_token := None; t_cookies := None |},
     world_at 0) /\
  Server.callTool home0 browser0 "get_service_token"
    (Some (just_service "constructor")) (world_at 0)
  = (Fulfilled
       (Server.TokenPayload
          {| t_success := false;
             t_message := Some "No authentication found for constructor";
             t_service := None; t_token := None; t_cookies := None |}),
     world_at 0).
Proof.
  split; [|split; vm_compute; reflexivity].
  simpl. intros [H|[H|[H|[]]]]; discriminate H.
Qed.

Example callTool_unknown_service_jira :
  Server.callTool home0 browser0 "get_service_token" (Some (just_service "jira"))
    world_with_services
  = (Fulfilled (Server.ErrorPayload "Unknown service: jira"), world_with_services).
Proof. vm_compute. reflexivity. Qed.

(** ** Keys in another letter case *)

Section LetterCase.

Variable home : string.

(** C10: a key [k] that is not a catalog key but lower-cases to one is
    known to the catalog's query methods ([isValidService] answers true
    and [getService] returns the descriptor of the lower-cased key), while
    [getServiceToken], which reads [SERVICE_CONFIGS[k]] with the key as
    given, rejects with "Unknown service". *)
Theorem C10_case_variant_key
    (k key : string) (config : ServiceConfig) (w : World) :
  Js.own SERVICE_CONFIGS key = Some config ->
  Js.toLowerCase k = key ->
  k <> key ->
  ServiceRegistry.isValidService k = true /\
  ServiceRegistry.getService k = Js.Own config /\
  AuthManager.getServiceToken home k w
  = (Rejected (Js.mkError "Error" ("Unknown service: " +:+ k)), w).
Proof.
  intros Hown Hlow Hne.
  unfold ServiceRegistry.isValidService, ServiceRegistry.getService, Js.has.
  rewrite Hlow, (get_own _ _ _ Hown). split; [reflexivity|]. split; [reflexivity|].
  apply getServiceToken_unknown, get_undefined. split.
  - intros H. catalog_key H; apply Hne; by rewrite <- Hlow.
  - simpl. intros H. subst key.
    repeat (destruct H as [<-|H]; [vm_compute in Hown; discriminate Hown|]).
    destruct H.
Qed.

End LetterCase.

Lemma C10_case_variant_key_witness :
  ServiceRegistry.isValidService "DataHub" = true /\
  ServiceRegistry.getService "DataHub"
  = Js.Own {| name := "DataHub";
              url := "https://datahub.eng.toasttab.com";
              cookieDomain := "datahub.eng.toasttab.com";
              sessionType := session_cookie;
              description := "Toast's metadata platform";
              legacyPath := Some "~/.mcp-datahub/cookies.json" |} /\
  AuthManager.getServiceToken home0 "DataHub" world_with_services
  = (Rejected (Js.mkError "Error" ("Unknown service: " +:+ "DataHub")),
     world_with_services).
Proof.
  apply (C10_case_variant_key home0 "DataHub" "datahub").
  - reflexivity.
  - reflexivity.
  - discriminate.
Defined.


(** * Further properties of the lifecycle manager *)

(** ** The browser path *)

Section BrowserPath.

Variable home : string.
Variable browser : nat -> LaunchRequest -> Settled (list Cookie).

Lemma stored_insert_ne (w : World) (p q : string) (f : File) :
  p <> q -> stored (with_disk (<[p := f]> (disk w)) w) q = stored w q.
Proof. intros N. unfold stored, with_disk; simpl. by rewrite lookup_insert_ne. Qed.

(** The page the code aims the browser at. *)
Lemma target_url_eq (service : option string) :
  match Js.truthy_arg service with
  | Some s => AuthManager.service_url s
  | None => AuthManager.okta_url
  end = start_page service.
Proof.
  destruct service as [s|]; [|reflexivity]. unfold start_page.
  destruct (String.eqb s "datahub") eqn:E1; [apply String.eqb_eq in E1; by subst|].
  destruct (String.eqb s "splunk") eqn:E2; [apply String.eqb_eq in E2; by subst|].
  destruct (String.eqb s "zeppelin") eqn:E3; [apply String.eqb_eq in E3; by subst|].
  unfold Js.truthy_arg. destruct (Js.truthy_string s); [|reflexivity].
  unfold AuthManager.service_url, Js.get, SERVICE_CONFIGS, Js.own.
  rewrite (String.eqb_sym "datahub"), E1, (String.eqb_sym "splunk"), E2,
    (String.eqb_sym "zeppelin"), E3.
  by destruct (Js.inherited s).
Qed.

(** The request the code makes. *)
Lemma request_eq (service username : option string) (w : World) :
  {| seed :=
       if Value.truthy (default JNull (stored w (AuthManager.oktaCookieFile home)))
       then Some (default JNull (stored w (AuthManager.oktaCookieFile home)))
       else None;
     targetUrl := match Js.truthy_arg service with
                  | Some s => AuthManager.service_url s
                  | None => AuthManager.okta_url
                  end;
     loginName := Js.truthy_arg username |}
  = login_request home service username w.
Proof.
  unfold login_request, okta_record. rewrite target_url_eq, <- oktaCookieFile_eq. f_equal.
  unfold seed_of. by destruct (stored w (AuthManager.oktaCookieFile home)).
Qed.

(** A session that faults leaves the disk alone. *)
Lemma browserAuthenticate_fault
    (service username : option string) (e : Js.Error) (w : World) :
  browser (length (launches w)) (login_request home service username w) = Rejected e ->
  AuthManager.browserAuthenticate home browser service username w
  = (Fulfilled {| success := false;
                  message := "Browser authentication failed: " +:+ Js.show_error e;
                  service := None; cookies := None; token := None |},
     with_launch (login_request home service username w) w).
Proof.
  intros H.
  unfold AuthManager.browserAuthenticate, try_catch, bind, AuthManager.interactiveLogin.
  rewrite loadOktaCookies_eq, request_eq.
  by rewrite H.
Qed.

(** The disk after a session that ended with [captured]. *)
Lemma browserAuthenticate_captured
    (service username : option string) (captured : list Cookie) (w : World) :
  browser (length (launches w)) (login_request home service username w)
    = Fulfilled captured ->
  exists d,
    AuthManager.browserAuthenticate home browser service username w
    = (Fulfilled
         {| success := true;
            message := match Js.truthy_arg service with
                       | Some s => "Authenticated with " +:+ s
                       | None => "Okta authentication successful"
                       end;
            service := service;
            cookies := Some (Cookies
                         (filter (fun c => AuthManager.is_okta_cookie c = true) captured));
            token := None |},
       {| disk := d;
          launches := launches w ++ [login_request home service username w];
          clock := clock w |}) /\
    d = match Js.truthy_arg service with
        | Some s =>
            match Js.get SERVICE_CONFIGS s with
            | Js.Own config =>
                <[AuthManager.serviceFile home s :=
                    {| data := JsonOf (Cookies (filter (fun c =>
                                 Js.includes (c_domain c) (cookieDomain config) = true)
                                 captured));
                       mode := 384 |}]>
                  (<[AuthManager.oktaCookieFile home :=
                       {| data := JsonOf (Cookies (filter (fun c =>
                                    AuthManager.is_okta_cookie c = true) captured));
                          mode := 384 |}]> (disk w))
            | Js.Inherited =>
                <[AuthManager.serviceFile home s :=
                    {| data := JsonOf (Cookies (filter (fun c =>
                                 Js.includes (c_domain c) "undefined" = true) captured));
                       mode := 384 |}]>
                  (<[AuthManager.oktaCookieFile home :=
                       {| data := JsonOf (Cookies (filter (fun c =>
                                    AuthManager.is_okta_cookie c = true) captured));
                          mode := 384 |}]> (disk w))
            | Js.Undefined =>
                <[AuthManager.oktaCookieFile home :=
                    {| data := JsonOf (Cookies (filter (fun c =>
                                 AuthManager.is_okta_cookie c = true) captured));
                       mode := 384 |}]> (disk w)
            end
        | None =>
            <[AuthManager.oktaCookieFile home :=
                {| data := JsonOf (Cookies (filter (fun c =>
                             AuthManager.is_okta_cookie c = true) captured));
                   mode := 384 |}]> (disk w)
        end.
Proof.
  intros H.
  unfold AuthManager.browserAuthenticate, try_catch, bind, AuthManager.interactiveLogin.
  rewrite loadOktaCookies_eq, request_eq.
  rewrite H, saveOktaCookies_eq.
  destruct (Js.truthy_arg service) as [s|]; [|eexists; split; reflexivity].
  destruct (Js.get SERVICE_CONFIGS s) as [config| |];
    rewrite ?saveServiceCookies_eq; eexists; split; reflexivity.
Qed.

(** Whatever the browser does, [browserAuthenticate] settles with a
    result and logs exactly one launch. *)
Lemma browserAuthenticate_settles (service username : option string) (w : World) :
  exists r w',
    AuthManager.browserAuthenticate home browser service username w = (Fulfilled r, w') /\
    launches w' = launches w ++ [login_request home service username w] /\
    clock w' = clock w /\
    token r = None.
Proof.
  destruct (browser (length (launches w)) (login_request home service username w))
    as [captured|e] eqn:B.
  - destruct (browserAuthenticate_captured service username captured w B) as (d & E & _).
    rewrite E. do 2 eexists. split; [reflexivity|]. by repeat split.
  - rewrite (browserAuthenticate_fault service username e w B).
    do 2 eexists. split; [reflexivity|]. by repeat split.
Qed.

(** When the stored session is not reused, [authenticate] is
    [browserAuthenticate]. *)
Lemma authenticate_browser
    (service username : option string) (forceRefresh : bool) (w : World) :
  forceRefresh = true \/ no_valid_session home w ->
  AuthManager.authenticate home browser service username forceRefresh w
  = AuthManager.browserAuthenticate home browser service username w.
Proof.
  intros H.
  destruct (browserAuthenticate_settles service username w) as (r & w' & E & _).
  unfold AuthManager.authenticate, try_catch, bind.
  destruct forceRefresh; simpl.
  - by rewrite E.
  - destruct H as [H|H]; [discriminate|]. unfold no_valid_session in H.
    rewrite loadOktaCookies_eq.
    destruct (stored w (AuthManager.oktaCookieFile home)) as [[set| | | | |]|]; simpl;
      simpl in H; rewrite ?H; simpl; by rewrite E.
Qed.

End BrowserPath.

(** ** Logging in through the browser *)

Section Login.

Variable home : string.
Variable browser : nat -> LaunchRequest -> Settled (list Cookie).

Lemma catalog_key_truthy (s : string) (config : ServiceConfig) :
  Js.own SERVICE_CONFIGS s = Some config -> Js.truthy_arg (Some s) = Some s.
Proof. destruct s; [discriminate|reflexivity]. Qed.

(** X1. With [forceRefresh], or with no usable session in store,
    [authenticate] launches the browser exactly once: seeded with the
    value stored in [~/.mcp-auth/okta-cookies.json], when there is a truthy
    one, and aimed at the page of the service for [datahub], [splunk] and
    [zeppelin] and at the identity provider's otherwise; it settles with a
    result whatever the browser does. *)
Theorem authenticate_launches_once
    (service username : option string) (forceRefresh : bool) (w : World) :
  forceRefresh = true \/ no_valid_session home w ->
  exists r w',
    AuthManager.authenticate home browser service username forceRefresh w
    = (Fulfilled r, w') /\
    launches w'
    = launches w
      ++ [ {| seed := seed_of (stored w (home +:+ "/.mcp-auth/okta-cookies.json"));
              targetUrl := start_page service;
              loginName := Js.truthy_arg username |} ].
Proof.
  intros H. rewrite (authenticate_browser home browser _ _ _ _ H).
  destruct (browserAuthenticate_settles home browser service username w)
    as (r & w' & E & L & _).
  eauto.
Qed.

(** X2. A browser session that faults (launch failure, navigation error,
    the bounded wait running out) makes [authenticate] settle with a failure
    whose message is "Browser authentication failed: " followed by the
    fault as a template literal prints it: its name, a colon and its
    message, or the one of the two that is not empty. No file is written or
    removed. *)
Theorem authenticate_browser_fault
    (service username : option string) (forceRefresh : bool) (e : Js.Error) (w : World) :
  forceRefresh = true \/ no_valid_session home w ->
  browser (length (launches w)) (login_request home service username w) = Rejected e ->
  exists text w',
    AuthManager.authenticate home browser service username forceRefresh w
    = (Fulfilled {| success := false; message := text;
                    service := None; cookies := None; token := None |}, w') /\
    (Js.err_name e <> EmptyString -> Js.err_message e <> EmptyString ->
     text = "Browser authentication failed: "
            +:+ Js.err_name e +:+ ": " +:+ Js.err_message e) /\
    (Js.err_name e <> EmptyString -> Js.err_message e = EmptyString ->
     text = "Browser authentication failed: " +:+ Js.err_name e) /\
    (Js.err_name e = EmptyString ->
     text = "Browser authentication failed: " +:+ Js.err_message e) /\
    disk w' = disk w.
Proof.
  intros H B. rewrite (authenticate_browser home browser _ _ _ _ H).
  rewrite (browserAuthenticate_fault home browser _ _ e w B).
  do 2 eexists. split; [reflexivity|].
  unfold Js.show_error.
  repeat split.
  - intros Hn Hm.
    destruct (String.eqb_spec (Js.err_name e) EmptyString) as [?|_]; [done|].
    by destruct (String.eqb_spec (Js.err_message e) EmptyString) as [?|_].
  - intros Hn Hm.
    destruct (String.eqb_spec (Js.err_name e) EmptyString) as [?|_]; [done|].
    by rewrite Hm.
  - intros Hn. by rewrite Hn.
Qed.

(** X3. After a browser session for a catalog service that ended with
    [captured], the identity-provider record holds the captured cookies
    whose domain contains "okta.com" or "toasttab.com", the record of the
    service holds those whose domain contains the service's cookie domain,
    both records are readable by their owner only, and no other file has
    changed. The result is a success that carries the identity-provider
    cookies. *)
Theorem authenticate_captures_scopes
    (s : string) (config : ServiceConfig) (username : option string)
    (forceRefresh : bool) (captured : list Cookie) (w : World) :
  Js.own SERVICE_CONFIGS s = Some config ->
  forceRefresh = true \/ no_valid_session home w ->
  browser (length (launches w)) (login_request home (Some s) username w)
    = Fulfilled captured ->
  exists r w',
    AuthManager.authenticate home browser (Some s) username forceRefresh w
    = (Fulfilled r, w') /\
    success r = true /\
    message r = "Authenticated with " +:+ s /\
    cookies r
    = Some (Cookies (filter (fun c => identity_provider_cookie c = true) captured)) /\
    holds w' (okta_record home)
      (filter (fun c => identity_provider_cookie c = true) captured) /\
    holds w' (service_record home s)
      (filter (fun c => Js.includes (c_domain c) (cookieDomain config) = true) captured) /\
    AuthManager.loadOktaCookies home w'
    = (Fulfilled (Cookies (filter (fun c => identity_provider_cookie c = true) captured)),
       w') /\
    AuthManager.loadServiceCookies home s w'
    = (Fulfilled (Cookies (filter (fun c =>
                    Js.includes (c_domain c) (cookieDomain config) = true) captured)), w') /\
    mode_of w' (okta_record home) = Some 384%N /\
    mode_of w' (service_record home s) = Some 384%N /\
    (forall p, p <> okta_record home -> p <> service_record home s ->
               disk w' !! p = disk w !! p).
Proof.
  intros Hown H B. rewrite (authenticate_browser home browser _ _ _ _ H).
  destruct (browserAuthenticate_captured home browser _ _ captured w B) as (d & -> & Hd).
  rewrite (catalog_key_truthy s config Hown), (get_own _ _ _ Hown) in Hd.
  rewrite (catalog_key_truthy s config Hown).
  do 2 eexists. split; [reflexivity|].
  rewrite loadOktaCookies_eq, loadServiceCookies_eq.
  unfold holds, okta_record, service_record.
  rewrite <- oktaCookieFile_eq, <- serviceFile_eq.
  unfold stored, mode_of; simpl. subst d.
  pose proof (serviceFile_not_okta home s) as Hne.
  rewrite lookup_insert_eq, lookup_insert_ne, lookup_insert_eq by done.
  repeat split; try by eexists.
  intros p H1 H2. by rewrite !lookup_insert_ne.
Qed.

(** X4. On the browser path a service key that the catalog does not know
    is not refused: the browser is sent to the identity provider, only the
    identity-provider record is written, and the result is the success
    "Authenticated with" that key. *)
Theorem authenticate_unknown_service_after_login
    (s : string) (username : option string) (forceRefresh : bool)
    (captured : list Cookie) (w : World) :
  Js.truthy_arg (Some s) = Some s ->
  Js.get SERVICE_CONFIGS s = Js.Undefined ->
  forceRefresh = true \/ no_valid_session home w ->
  browser (length (launches w)) (login_request home (Some s) username w)
    = Fulfilled captured ->
  targetUrl (login_request home (Some s) username w) = "https://toasttab.okta.com" /\
  exists r w',
    AuthManager.authenticate home browser (Some s) username forceRefresh w
    = (Fulfilled r, w') /\
    success r = true /\
    message r = "Authenticated with " +:+ s /\
    launches w' = launches w ++ [login_request home (Some s) username w] /\
    (forall p, p <> AuthManager.oktaCookieFile home -> disk w' !! p = disk w !! p).
Proof.
  intros Ht Hget H B. split.
  { unfold login_request; cbn [targetUrl]. rewrite <- target_url_eq, Ht.
    unfold AuthManager.service_url. by rewrite Hget. }
  rewrite (authenticate_browser home browser _ _ _ _ H).
  destruct (browserAuthenticate_captured home browser _ _ captured w B) as (d & -> & Hd).
  rewrite Ht, Hget in Hd. rewrite Ht.
  do 2 eexists. split; [reflexivity|]. repeat split.
  intros p Hp. simpl. subst d. by rewrite lookup_insert_ne.
Qed.

End Login.

Lemma authenticate_launches_once_witness :
  exists r w',
    AuthManager.authenticate home0 browser_capturing (Some "splunk") None true
      world_with_session = (Fulfilled r, w') /\
    launches w'
    = launches world_with_session
      ++ [ {| seed := seed_of (stored world_with_session
                                 (home0 +:+ "/.mcp-auth/okta-cookies.json"));
              targetUrl := start_page (Some "splunk");
              loginName := Js.truthy_arg None |} ].
Proof.
  apply (authenticate_launches_once home0 browser_capturing (Some "splunk") None true
           world_with_session).
  left. reflexivity.
Defined.

Example authenticate_launches_for_splunk :
  exists r w',
    AuthManager.authenticate home0 browser_capturing (Some "splunk") None true
      world_with_session = (Fulfilled r, w') /\
    launches w'
    = [ {| seed := Some (Cookies [session_cookie0]);
           targetUrl := "https://toast.splunkcloud.com";
           loginName := None |} ].
Proof. do 2 eexists. split; vm_compute; reflexivity. Qed.

Lemma authenticate_browser_fault_witness :
  exists text w',
    AuthManager.authenticate home0 browser_timing_out None (Some "ann") false (world_at 7)
    = (Fulfilled {| success := false; message := text;
                    service := None; cookies := None; token := None |}, w') /\
    ("TimeoutError" <> EmptyString -> "Timeout 120000ms exceeded." <> EmptyString ->
     text = "Browser authentication failed: "
            +:+ "TimeoutError" +:+ ": " +:+ "Timeout 120000ms exceeded.") /\
    ("TimeoutError" <> EmptyString -> "Timeout 120000ms exceeded." = EmptyString ->
     text = "Browser authentication failed: " +:+ "TimeoutError") /\
    ("TimeoutError" = EmptyString ->
     text = "Browser authentication failed: " +:+ "Timeout 120000ms exceeded.") /\
    disk w' = disk (world_at 7).
Proof.
  apply (authenticate_browser_fault home0 browser_timing_out None (Some "ann") false
           (Js.mkError "TimeoutError" "Timeout 120000ms exceeded.") (world_at 7)).
  - right. vm_compute. exact I.
  - reflexivity.
Defined.

Example authenticate_fault_without_message :
  AuthManager.authenticate home0 (fun _ _ => Rejected (Js.mkError "Error" EmptyString))
    None None true (world_at 7)
  = (Fulfilled {| success := false; message := "Browser authentication failed: Error";
                  service := None; cookies := None; token := None |},
     with_launch {| seed := None; targetUrl := "https://toasttab.okta.com";
                    loginName := None |} (world_at 7)).
Proof. vm_compute. reflexivity. Qed.

Lemma authenticate_captures_scopes_witness :
  exists r w',
    AuthManager.authenticate home0 browser_capturing_datahub (Some "datahub") None true
      world_with_session = (Fulfilled r, w') /\
    success r = true /\
    message r = "Authenticated with " +:+ "datahub" /\
    cookies r
    = Some (Cookies (filter (fun c => identity_provider_cookie c = true)
                       [session_cookie0; datahub_cookie0; token_cookie0])) /\
    holds w' (okta_record home0)
      (filter (fun c => identity_provider_cookie c = true)
         [session_cookie0; datahub_cookie0; token_cookie0]) /\
    holds w' (service_record home0 "datahub")
      (filter (fun c => Js.includes (c_domain c) (cookieDomain datahub_config) = true)
         [session_cookie0; datahub_cookie0; token_cookie0]) /\
    AuthManager.loadOktaCookies home0 w'
    = (Fulfilled (Cookies (filter (fun c => identity_provider_cookie c = true)
                             [session_cookie0; datahub_cookie0; token_cookie0])), w') /\
    AuthManager.loadServiceCookies home0 "datahub" w'
    = (Fulfilled (Cookies (filter (fun c =>
                    Js.includes (c_domain c) (cookieDomain datahub_config) = true)
                    [session_cookie0; datahub_cookie0; token_cookie0])), w') /\
    mode_of w' (okta_record home0) = Some 384%N /\
    mode_of w' (service_record home0 "datahub") = Some 384%N /\
    (forall p, p <> okta_record home0 -> p <> service_record home0 "datahub" ->
               disk w' !! p = disk world_with_session !! p).
Proof.
  apply (authenticate_captures_scopes home0 browser_capturing_datahub "datahub"
           datahub_config None true [session_cookie0; datahub_cookie0; token_cookie0]
           world_with_session).
  - reflexivity.
  - left. reflexivity.
  - reflexivity.
Defined.

(** A cookie of [datahub.eng.toasttab.com] goes to both records; one of
    [toast.splunkcloud.com] goes to neither. *)
Example authenticate_datahub_partition :
  exists w',
    AuthManager.authenticate home0 browser_capturing_datahub (Some "datahub") None true
      world_with_session
    = (Fulfilled {| success := true; message := "Authenticated with datahub";
                    service := Some "datahub";
                    cookies := Some (Cookies [session_cookie0; datahub_cookie0]);
                    token := None |}, w') /\
    holds w' (okta_record home0) [session_cookie0; datahub_cookie0] /\
    holds w' (service_record home0 "datahub") [datahub_cookie0].
Proof.
  eexists. split; [vm_compute; reflexivity|].
  split; exists 384%N; vm_compute; reflexivity.
Qed.

Example authenticate_splunk_partition :
  exists w',
    AuthManager.authenticate home0 browser_capturing (Some "splunk") None true
      world_with_session
    = (Fulfilled {| success := true; message := "Authenticated with splunk";
                    service := Some "splunk"; cookies := Some (Cookies [session_cookie0]);
                    token := None |}, w') /\
    AuthManager.loadServiceCookies home0 "splunk" w'
    = (Fulfilled (Cookies [token_cookie0; plain_cookie0]), w').
Proof. eexists. split; vm_compute; reflexivity. Qed.

Lemma authenticate_unknown_service_after_login_witness :
  targetUrl (login_request home0 (Some "jira") None (world_at 7))
  = "https://toasttab.okta.com" /\
  exists r w',
    AuthManager.authenticate home0 browser_capturing (Some "jira") None false (world_at 7)
    = (Fulfilled r, w') /\
    success r = true /\
    message r = "Authenticated with " +:+ "jira" /\
    launches w' = launches (world_at 7) ++ [login_request home0 (Some "jira") None (world_at 7)] /\
    (forall p, p <> AuthManager.oktaCookieFile home0 ->
               disk w' !! p = disk (world_at 7) !! p).
Proof.
  apply (authenticate_unknown_service_after_login home0 browser_capturing "jira" None false
           [session_cookie0; token_cookie0; plain_cookie0] (world_at 7)).
  - reflexivity.
  - reflexivity.
  - right. vm_compute. exact I.
  - reflexivity.
Defined.

(** ** Reuse after a login, and refreshing *)

Section Refresh.

Variable home : string.
Variable browser : nat -> LaunchRequest -> Settled (list Cookie).

(** The validator looks at the clock and at nothing else in the world. *)
Lemma validateOktaSession_clock (v : Json) (b : bool) (w w' : World) :
  clock w' = clock w ->
  AuthManager.validateOktaSession v w = (Fulfilled b, w) ->
  AuthManager.validateOktaSession v w' = (Fulfilled b, w').
Proof.
  unfold AuthManager.validateOktaSession, bind, Date_now, Value.find, ret, throw.
  intros ->.
  destruct v as [S| | | | |]; try discriminate.
  destruct (find _ S) as [c|]; [|by intros [= <-]].
  destruct (c_expires c) as [e|]; [|by intros [= <-]].
  destruct (_ && _); by intros [= <-].
Qed.

Lemma authenticate_reuse_plain (username : option string) (set : list Cookie) (w : World) :
  stored w (AuthManager.oktaCookieFile home) = Some (Cookies set) ->
  AuthManager.validateOktaSession (Cookies set) w = (Fulfilled true, w) ->
  AuthManager.authenticate home browser None username false w
  = (Fulfilled {| success := true; message := "Okta authentication valid";
                  service := None; cookies := Some (Cookies set); token := None |}, w).
Proof.
  intros Hs Hv. unfold AuthManager.authenticate, try_catch, bind; simpl.
  rewrite loadOktaCookies_eq, Hs. simpl. by rewrite Hv.
Qed.

(** X5. Logging in and then asking again: when the identity-provider
    cookies a forced login captured pass the validator, the next
    [authenticate] without [forceRefresh] returns exactly those cookies and
    launches no browser. *)
Theorem login_then_reuse
    (username username' : option string) (captured : list Cookie) (w : World) :
  browser (length (launches w)) (login_request home None username w) = Fulfilled captured ->
  AuthManager.validateOktaSession
    (Cookies (filter (fun c => AuthManager.is_okta_cookie c = true) captured)) w
    = (Fulfilled true, w) ->
  exists r w',
    AuthManager.authenticate home browser None username true w = (Fulfilled r, w') /\
    length (launches w') = S (length (launches w)) /\
    AuthManager.authenticate home browser None username' false w'
    = (Fulfilled
         {| success := true; message := "Okta authentication valid";
            service := None;
            cookies := Some (Cookies
                         (filter (fun c => AuthManager.is_okta_cookie c = true) captured));
            token := None |}, w').
Proof.
  intros B V.
  rewrite (authenticate_browser home browser None username true w (or_introl eq_refl)).
  destruct (browserAuthenticate_captured home browser _ _ captured w B) as (d & -> & Hd).
  simpl in Hd. do 2 eexists. split; [reflexivity|]. split.
  { simpl. rewrite length_app. simpl. lia. }
  apply authenticate_reuse_plain.
  - unfold stored; simpl. subst d. by rewrite lookup_insert_eq.
  - by apply (validateOktaSession_clock _ _ w).
Qed.

(** X6. [refreshSession] with a stored set the validator accepts answers
    "Session still valid" with that set and touches nothing. *)
Theorem refreshSession_still_valid (set : list Cookie) (w : World) :
  AuthManager.loadOktaCookies home w = (Fulfilled (Cookies set), w) ->
  AuthManager.validateOktaSession (Cookies set) w = (Fulfilled true, w) ->
  AuthManager.refreshSession home browser w
  = (Fulfilled {| success := true; message := "Session still valid";
                  service := None; cookies := Some (Cookies set); token := None |}, w).
Proof.
  intros Hl Hv. unfold AuthManager.refreshSession, bind. rewrite Hl. simpl. by rewrite Hv.
Qed.

(** X7. [refreshSession] with no usable session does what a forced
    [authenticate] without service or user name does, and so launches the
    browser once, aimed at the identity provider. *)
Theorem refreshSession_reauthenticates (w : World) :
  no_valid_session home w ->
  AuthManager.refreshSession home browser w
  = AuthManager.authenticate home browser None None true w /\
  exists r w',
    AuthManager.refreshSession home browser w = (Fulfilled r, w') /\
    launches w'
    = launches w ++ [ {| seed := seed_of (stored w (AuthManager.oktaCookieFile home));
                         targetUrl := "https://toasttab.okta.com";
                         loginName := None |} ].
Proof.
  intros H.
  assert (AuthManager.refreshSession home browser w
          = AuthManager.authenticate home browser None None true w) as E.
  { unfold AuthManager.refreshSession, bind. rewrite loadOktaCookies_eq.
    unfold no_valid_session in H.
    destruct (stored w (AuthManager.oktaCookieFile home)) as [[set| | | | |]|];
      simpl; simpl in H; by rewrite ?H. }
  split; [exact E|]. rewrite E.
  rewrite (authenticate_browser home browser None None true w (or_introl eq_refl)).
  destruct (browserAuthenticate_settles home browser None None w) as (r & w' & -> & L & _).
  do 2 eexists. split; [reflexivity|]. rewrite L.
  unfold login_request, okta_record. by rewrite <- oktaCookieFile_eq.
Qed.

End Refresh.

Lemma login_then_reuse_witness :
  exists r w',
    AuthManager.authenticate home0 browser_capturing None (Some "ann") true (world_at 7)
    = (Fulfilled r, w') /\
    length (launches w') = S (length (launches (world_at 7))) /\
    AuthManager.authenticate home0 browser_capturing None None false w'
    = (Fulfilled
         {| success := true; message := "Okta authentication valid";
            service := None;
            cookies := Some (Cookies
                         (filter (fun c => AuthManager.is_okta_cookie c = true)
                            [session_cookie0; token_cookie0; plain_cookie0]));
            token := None |}, w').
Proof.
  apply (login_then_reuse home0 browser_capturing (Some "ann") None
           [session_cookie0; token_cookie0; plain_cookie0] (world_at 7)).
  - reflexivity.
  - vm_compute. reflexivity.
Defined.

Lemma refreshSession_still_valid_witness :
  AuthManager.refreshSession home0 browser_capturing world_with_session
  = (Fulfilled {| success := true; message := "Session still valid";
                  service := None; cookies := Some (Cookies [session_cookie0]);
                  token := None |},
     world_with_session).
Proof.
  apply (refreshSession_still_valid home0 browser_capturing [session_cookie0]
           world_with_session); vm_compute; reflexivity.
Defined.

Lemma refreshSession_reauthenticates_witness :
  AuthManager.refreshSession home0 browser_capturing (world_at 7)
  = AuthManager.authenticate home0 browser_capturing None None true (world_at 7) /\
  exists r w',
    AuthManager.refreshSession home0 browser_capturing (world_at 7) = (Fulfilled r, w') /\
    launches w'
    = launches (world_at 7)
      ++ [ {| seed := seed_of (stored (world_at 7) (AuthManager.oktaCookieFile home0));
              targetUrl := "https://toasttab.okta.com";
              loginName := None |} ].
Proof.
  apply (refreshSession_reauthenticates home0 browser_capturing (world_at 7)).
  vm_compute. exact I.
Defined.

(** ** Clearing everything *)

Section ClearAll.

Variable home : string.

Lemma under_oktaCookieFile :
  Fs.under (AuthManager.authDir home) (AuthManager.oktaCookieFile home) = true.
Proof.
  unfold Fs.under. apply orb_true_iff. right. apply prefix_spec.
  exists "okta-cookies.json". unfold AuthManager.oktaCookieFile, Path.join.
  by rewrite !append_assoc.
Qed.

Lemma under_serviceFile (s : string) :
  Fs.under (AuthManager.authDir home) (AuthManager.serviceFile home s) = true.
Proof.
  unfold Fs.under. apply orb_true_iff. right. apply prefix_spec.
  exists ("services/" +:+ s +:+ ".json").
  unfold AuthManager.serviceFile, AuthManager.serviceCookieDir, Path.join.
  by rewrite !append_assoc.
Qed.

Lemma clearAuth_all_eq (service : option string) (w : World) :
  Js.truthy_arg service = None \/ service = Some "all" ->
  AuthManager.clearAuth home service w
  = (Fulfilled {| success := true; message := "All authentication cleared";
                  service := None; cookies := None; token := None |}, cleared home w).
Proof.
  unfold AuthManager.clearAuth. intros [->| ->]; reflexivity.
Qed.

Lemma stored_cleared (w : World) (p : string) :
  Fs.under (AuthManager.authDir home) p = true -> stored (cleared home w) p = None.
Proof.
  intros U. unfold stored, cleared; simpl.
  assert (filter (fun kv : string * File =>
                    Fs.under (AuthManager.authDir home) kv.1 = false) (disk w) !! p = None)
    as ->; [|done].
  apply map_lookup_filter_None. right. intros f _. simpl. by rewrite U.
Qed.

Lemma well_formed_cleared (w : World) (p : string) :
  Fs.under (AuthManager.authDir home) p = true -> well_formed_at (cleared home w) p.
Proof.
  intros U. unfold well_formed_at, cleared; simpl.
  assert (filter (fun kv : string * File =>
                    Fs.under (AuthManager.authDir home) kv.1 = false) (disk w) !! p = None)
    as ->; [|done].
  apply map_lookup_filter_None. right. intros f _. simpl. by rewrite U.
Qed.

Lemma lookup_cleared (w : World) (p : string) :
  Fs.under (AuthManager.authDir home) p = false -> disk (cleared home w) !! p = disk w !! p.
Proof.
  intros U. unfold cleared; simpl.
  destruct (disk w !! p) as [f|] eqn:E.
  - apply map_lookup_filter_Some. by split.
  - apply map_lookup_filter_None. by left.
Qed.

(** X8. [clearAuth] without a service, with an empty one or with "all"
    removes the identity-provider record and the record of every catalog
    service, succeeds whatever was stored, and leaves every file outside
    [~/.mcp-auth] (the legacy copies among them) as it was. *)
Theorem clearAuth_everything (service : option string) (s : string) (w : World) :
  Js.truthy_arg service = None \/ service = Some "all" ->
  In s (Js.keys SERVICE_CONFIGS) ->
  exists w',
    AuthManager.clearAuth home service w
    = (Fulfilled {| success := true; message := "All authentication cleared";
                    service := None; cookies := None; token := None |}, w') /\
    AuthManager.loadOktaCookies home w' = (Fulfilled JNull, w') /\
    AuthManager.loadServiceCookies home s w' = (Fulfilled (Cookies []), w') /\
    (forall p, Fs.under (AuthManager.authDir home) p = false ->
               disk w' !! p = disk w !! p) /\
    launches w' = launches w.
Proof.
  intros H _. rewrite (clearAuth_all_eq service w H). eexists. split; [reflexivity|].
  rewrite loadOktaCookies_eq, loadServiceCookies_eq.
  rewrite (stored_cleared w _ under_oktaCookieFile), (stored_cleared w _ (under_serviceFile s)).
  repeat split. apply lookup_cleared.
Qed.

(** X9. Clearing everything and then asking for the status: the identity
    provider is reported unauthenticated and every catalog service is
    reported unauthenticated and without cookies of its own. *)
Theorem clearAuth_then_checkAuthStatus (service : option string) (w : World) :
  Js.truthy_arg service = None \/ service = Some "all" ->
  exists r w',
    AuthManager.clearAuth home service w = (Fulfilled r, w') /\
    AuthManager.checkAuthStatus home w'
    = (Fulfilled
         {| okta := false;
            services :=
              [ ("datahub", {| authenticated := false; hasServiceCookies := false |});
                ("splunk", {| authenticated := false; hasServiceCookies := false |});
                ("zeppelin", {| authenticated := false; hasServiceCookies := false |}) ] |},
       w').
Proof.
  intros H. rewrite (clearAuth_all_eq service w H). do 2 eexists. split; [reflexivity|].
  unfold AuthManager.checkAuthStatus, bind.
  rewrite loadOktaCookies_eq, (stored_cleared w _ under_oktaCookieFile).
  cbn [default from_option id Value.truthy]. unfold ret at 1. cbv beta iota.
  rewrite checkEachService_eq; simpl.
  - by rewrite !(stored_cleared w _ (under_serviceFile _)).
  - repeat (constructor; [apply well_formed_cleared, under_serviceFile|]). constructor.
Qed.

End ClearAll.

Lemma clearAuth_everything_witness :
  exists w',
    AuthManager.clearAuth home0 (Some "all") world_with_services
    = (Fulfilled {| success := true; message := "All authentication cleared";
                    service := None; cookies := None; token := None |}, w') /\
    AuthManager.loadOktaCookies home0 w' = (Fulfilled JNull, w') /\
    AuthManager.loadServiceCookies home0 "splunk" w' = (Fulfilled (Cookies []), w') /\
    (forall p, Fs.under (AuthManager.authDir home0) p = false ->
               disk w' !! p = disk world_with_services !! p) /\
    launches w' = launches world_with_services.
Proof.
  apply (clearAuth_everything home0 (Some "all") "splunk" world_with_services).
  - right. reflexivity.
  - simpl. tauto.
Defined.

Lemma clearAuth_then_checkAuthStatus_witness :
  exists r w',
    AuthManager.clearAuth home0 None world_with_services = (Fulfilled r, w') /\
    AuthManager.checkAuthStatus home0 w'
    = (Fulfilled
         {| okta := false;
            services :=
              [ ("datahub", {| authenticated := false; hasServiceCookies := false |});
                ("splunk", {| authenticated := false; hasServiceCookies := false |});
                ("zeppelin", {| authenticated := false; hasServiceCookies := false |}) ] |},
       w').
Proof.
  apply (clearAuth_then_checkAuthStatus home0 None world_with_services).
  left. reflexivity.
Defined.

(** ** Copying into a legacy location *)

Section Legacy.

Variable home : string.

Lemma legacy_path_cases (toService legacy : string) :
  Js.own (AuthManager.legacyPaths home) toService = Some legacy ->
  exists tool, legacy = home +:+ "/.mcp-" +:+ tool +:+ "/cookies.json".
Proof.
  unfold AuthManager.legacyPaths, Js.own, Path.join.
  destruct (String.eqb _ toService);
    [intros [= <-]; exists "datahub"; by rewrite !append_assoc|].
  destruct (String.eqb _ toService);
    [intros [= <-]; exists "splunk"; by rewrite !append_assoc|].
  destruct (String.eqb _ toService);
    [intros [= <-]; exists "zeppelin"; by rewrite !append_assoc|].
  discriminate.
Qed.

Lemma legacy_not_okta (toService legacy : string) :
  Js.own (AuthManager.legacyPaths home) toService = Some legacy ->
  legacy <> AuthManager.oktaCookieFile home.
Proof.
  unfold AuthManager.legacyPaths, Js.own. rewrite oktaCookieFile_eq.
  unfold Path.join.
  repeat (destruct (String.eqb _ toService);
          [intros [= <-]; rewrite !append_assoc; intros E;
           apply (inj (String.app home)) in E; vm_compute in E; discriminate E|]).
  discriminate.
Qed.

(** X10. For a destination in the legacy mapping, [copySession] writes the
    stored identity-provider set, valid or not, to the legacy file of the
    destination and reports success; the file keeps the mode it had (a new
    one gets the default mode, not the owner-only mode of the store), no
    other file changes, and the source key plays no part. *)
Theorem copySession_writes_legacy
    (fromService toService legacy : string) (set : list Cookie) (w : World) :
  Js.own (AuthManager.legacyPaths home) toService = Some legacy ->
  AuthManager.loadOktaCookies home w = (Fulfilled (Cookies set), w) ->
  exists w',
    AuthManager.copySession home fromService toService w
    = (Fulfilled {| success := true;
                    message := "Okta session copied to " +:+ toService;
                    service := None; cookies := None; token := None |}, w') /\
    stored w' legacy = Some (Cookies set) /\
    mode_of w' legacy = Some (default Fs.default_mode (mode_of w legacy)) /\
    (forall p, p <> legacy -> disk w' !! p = disk w !! p) /\
    AuthManager.loadOktaCookies home w' = (Fulfilled (Cookies set), w').
Proof.
  intros Hown Hload.
  unfold AuthManager.copySession, bind. rewrite Hload, (get_own _ _ _ Hown).
  destruct (legacy_path_cases _ _ Hown) as [tool ->].
  assert (Js.truthy_string (home +:+ "/.mcp-" +:+ tool +:+ "/cookies.json") = true) as ->.
  { by destruct home. }
  unfold try_catch, bind, Fs.mkdir_recursive, ret, Fs.writeFile.
  eexists. split; [reflexivity|].
  rewrite loadOktaCookies_eq in *. injection Hload as Hs.
  unfold stored, mode_of in *; simpl.
  rewrite lookup_insert_eq, lookup_insert_ne, Hs
    by (intros E; by apply (legacy_not_okta _ _ Hown)).
  repeat split.
  - by destruct (disk w !! (home +:+ "/.mcp-" +:+ tool +:+ "/cookies.json")).
  - intros p Hp. by rewrite lookup_insert_ne.
Qed.

End Legacy.

Lemma copySession_writes_legacy_witness :
  exists w',
    AuthManager.copySession home0 "splunk" "datahub" world_with_session
    = (Fulfilled {| success := true;
                    message := "Okta session copied to " +:+ "datahub";
                    service := None; cookies := None; token := None |}, w') /\
    stored w' "/home/user/.mcp-datahub/cookies.json" = Some (Cookies [session_cookie0]) /\
    mode_of w' "/home/user/.mcp-datahub/cookies.json"
    = Some (default Fs.default_mode
              (mode_of world_with_session "/home/user/.mcp-datahub/cookies.json")) /\
    (forall p, p <> "/home/user/.mcp-datahub/cookies.json" ->
               disk w' !! p = disk world_with_session !! p) /\
    AuthManager.loadOktaCookies home0 w' = (Fulfilled (Cookies [session_cookie0]), w').
Proof.
  apply (copySession_writes_legacy home0 "splunk" "datahub"
           "/home/user/.mcp-datahub/cookies.json" [session_cookie0] world_with_session).
  - reflexivity.
  - vm_compute. reflexivity.
Defined.

(** ** More on the tokens of a service *)

Section TokenCases.

Variable home : string.

(** X11. A catalog service whose scope is empty or was never written gets a
    failure result, "No authentication found", not an exception. *)
Theorem getServiceToken_empty_scope (s : string) (config : ServiceConfig) (w : World) :
  Js.own SERVICE_CONFIGS s = Some config ->
  AuthManager.loadServiceCookies home s w = (Fulfilled (Cookies []), w) ->
  AuthManager.getServiceToken home s w
  = (Fulfilled {| t_success := false;
                  t_message := Some ("No authentication found for " +:+ s);
                  t_service := None; t_token := None; t_cookies := None |}, w).
Proof.
  intros Hown Hload. unfold AuthManager.getServiceToken, bind.
  by rewrite (get_own _ _ _ Hown), Hload.
Qed.

(** X12. For a catalog service with cookie-typed sessions no token is picked,
    even when a credential has a token-like name: the result is a success
    with the whole set and no token. *)
Theorem getServiceToken_cookie_typed
    (s : string) (config : ServiceConfig) (set : list Cookie) (w : World) :
  Js.own SERVICE_CONFIGS s = Some config ->
  sessionType config = session_cookie ->
  AuthManager.loadServiceCookies home s w = (Fulfilled (Cookies set), w) ->
  set <> [] ->
  AuthManager.getServiceToken home s w
  = (Fulfilled {| t_success := true; t_message := None; t_service := Some s;
                  t_token := None; t_cookies := Some (Cookies set) |}, w).
Proof.
  intros Hown Htype Hload Hne. unfold AuthManager.getServiceToken, bind.
  rewrite (get_own _ _ _ Hown), Hload.
  destruct set as [|c set]; [done|]. simpl. by rewrite Htype.
Qed.

(** X13. [getServiceToken] only reads: whatever the key and the outcome, the
    files, the launches and the clock are as before. *)
Theorem getServiceToken_reads_only (k : string) (w : World) :
  (AuthManager.getServiceToken home k w).2 = w.
Proof.
  unfold AuthManager.getServiceToken, bind, throw.
  destruct (Js.get SERVICE_CONFIGS k) as [config| |]; [| |reflexivity];
    rewrite loadServiceCookies_eq;
    destruct (default (Cookies []) (stored w (AuthManager.serviceFile home k)))
      as [[|c set]| | | |[|c s]|];
    try reflexivity.
  all: simpl; by destruct (sessionType config).
Qed.

Lemma clearAuth_one_eq (s : string) (w : World) :
  In s (Js.keys SERVICE_CONFIGS) ->
  AuthManager.clearAuth home (Some s) w
  = (Fulfilled {| success := true;
                  message := "Authentication cleared for " +:+ s;
                  service := None; cookies := None; token := None |},
     with_disk (delete (AuthManager.serviceFile home s) (disk w)) w).
Proof. intros Hs. catalog_key Hs; reflexivity. Qed.

(** X14. Clearing the scope of a catalog service and then asking for its
    token gives the failure "No authentication found". *)
Theorem clearAuth_then_getServiceToken (s : string) (w : World) :
  In s (Js.keys SERVICE_CONFIGS) ->
  exists r w',
    AuthManager.clearAuth home (Some s) w = (Fulfilled r, w') /\
    AuthManager.getServiceToken home s w'
    = (Fulfilled {| t_success := false;
                    t_message := Some ("No authentication found for " +:+ s);
                    t_service := None; t_token := None; t_cookies := None |}, w').
Proof.
  intros Hs. rewrite (clearAuth_one_eq s w Hs).
  do 2 eexists. split; [reflexivity|].
  destruct (proj1 (own_in_keys SERVICE_CONFIGS s) Hs) as [config Hown].
  unfold AuthManager.getServiceToken, bind.
  rewrite (get_own _ _ _ Hown), loadServiceCookies_eq.
  unfold stored, with_disk; simpl. by rewrite lookup_delete_eq.
Qed.

End TokenCases.

Lemma getServiceToken_empty_scope_witness :
  AuthManager.getServiceToken home0 "zeppelin" world_with_services
  = (Fulfilled {| t_success := false;
                  t_message := Some ("No authentication found for " +:+ "zeppelin");
                  t_service := None; t_token := None; t_cookies := None |},
     world_with_services).
Proof.
  apply (getServiceToken_empty_scope home0 "zeppelin"
           {| name := "Zeppelin";
              url := "https://zeppelin-okta.eng.toasttab.com";
              cookieDomain := "zeppelin-okta.eng.toasttab.com";
              sessionType := session_cookie;
              description := "Interactive data analytics notebooks";
              legacyPath := Some "~/.mcp-zeppelin/cookies.json" |} world_with_services).
  - reflexivity.
  - vm_compute. reflexivity.
Defined.

Lemma getServiceToken_cookie_typed_witness :
  AuthManager.getServiceToken home0 "datahub" world_with_services
  = (Fulfilled {| t_success := true; t_message := None; t_service := Some "datahub";
                  t_token := None; t_cookies := Some (Cookies [token_cookie0]) |},
     world_with_services).
Proof.
  apply (getServiceToken_cookie_typed home0 "datahub" datahub_config [token_cookie0]
           world_with_services).
  - reflexivity.
  - reflexivity.
  - vm_compute. reflexivity.
  - discriminate.
Defined.

Lemma clearAuth_then_getServiceToken_witness :
  exists r w',
    AuthManager.clearAuth home0 (Some "splunk") world_with_services = (Fulfilled r, w') /\
    AuthManager.getServiceToken home0 "splunk" w'
    = (Fulfilled {| t_success := false;
                    t_message := Some ("No authentication found for " +:+ "splunk");
                    t_service := None; t_token := None; t_cookies := None |}, w').
Proof.
  apply (clearAuth_then_getServiceToken home0 "splunk" world_with_services).
  simpl. tauto.
Defined.

(** ** Scopes of the store *)

Section Scopes.

Variable home : string.

(** X15. The scopes of the store do not disturb each other, and a record is
    replaced whole: after the identity-provider set and then two sets for
    a catalog service are saved, the identity-provider scope holds the
    first, the service holds the last set saved for it, both records are
    readable by their owner only, and the scope of any other catalog
    service is as it was. *)
Theorem saves_are_isolated_and_last_wins
    (s s' : string) (idp set1 set2 : list Cookie) (w : World) :
  In s (Js.keys SERVICE_CONFIGS) ->
  In s' (Js.keys SERVICE_CONFIGS) ->
  s' <> s ->
  exists w',
    (await AuthManager.saveOktaCookies home idp in
     await AuthManager.saveServiceCookies home s set1 in
     AuthManager.saveServiceCookies home s set2) w = (Fulfilled tt, w') /\
    AuthManager.loadOktaCookies home w' = (Fulfilled (Cookies idp), w') /\
    AuthManager.loadServiceCookies home s w' = (Fulfilled (Cookies set2), w') /\
    mode_of w' (AuthManager.oktaCookieFile home) = Some 384%N /\
    mode_of w' (AuthManager.serviceFile home s) = Some 384%N /\
    (AuthManager.loadServiceCookies home s' w').1
    = (AuthManager.loadServiceCookies home s' w).1.
Proof.
  intros Hs Hs' Hne. unfold bind.
  rewrite saveOktaCookies_eq, !saveServiceCookies_eq.
  eexists. split; [reflexivity|].
  rewrite loadOktaCookies_eq, !loadServiceCookies_eq.
  pose proof (serviceFile_not_okta home s) as N1.
  assert (AuthManager.serviceFile home s <> AuthManager.serviceFile home s') as N2.
  { intros E. apply Hne. symmetry. by apply (serviceFile_catalog_inj home). }
  pose proof (serviceFile_not_okta home s') as N3.
  unfold stored, mode_of; simpl.
  rewrite !lookup_insert_eq.
  rewrite !(lookup_insert_ne _ (AuthManager.serviceFile home s)
              (AuthManager.oktaCookieFile home)) by done.
  rewrite !(lookup_insert_ne _ (AuthManager.serviceFile home s)
              (AuthManager.serviceFile home s')) by done.
  rewrite lookup_insert_eq.
  rewrite (lookup_insert_ne _ (AuthManager.oktaCookieFile home)
             (AuthManager.serviceFile home s')) by done.
  by repeat split.
Qed.

End Scopes.

Lemma saves_are_isolated_and_last_wins_witness :
  exists w',
    (await AuthManager.saveOktaCookies home0 [session_cookie0] in
     await AuthManager.saveServiceCookies home0 "datahub" [plain_cookie0] in
     AuthManager.saveServiceCookies home0 "datahub" [token_cookie0; plain_cookie0])
      world_with_services = (Fulfilled tt, w') /\
    AuthManager.loadOktaCookies home0 w' = (Fulfilled (Cookies [session_cookie0]), w') /\
    AuthManager.loadServiceCookies home0 "datahub" w'
    = (Fulfilled (Cookies [token_cookie0; plain_cookie0]), w') /\
    mode_of w' (AuthManager.oktaCookieFile home0) = Some 384%N /\
    mode_of w' (AuthManager.serviceFile home0 "datahub") = Some 384%N /\
    (AuthManager.loadServiceCookies home0 "splunk" w').1
    = (AuthManager.loadServiceCookies home0 "splunk" world_with_services).1.
Proof.
  apply (saves_are_isolated_and_last_wins home0 "datahub" "splunk" [session_cookie0]
           [plain_cookie0] [token_cookie0; plain_cookie0] world_with_services).
  - simpl. tauto.
  - simpl. tauto.
  - discriminate.
Defined.


(** ** The tool surface *)

Section Surface.

Variable home : string.
Variable browser : nat -> LaunchRequest -> Settled (list Cookie).

(** X16. No tool call rejects: whatever the tool name, the arguments and the
    state of the store, the handler settles with a payload. *)
Theorem callTool_never_rejects
    (name : string) (args : option Server.ToolArguments) (w : World) :
  exists payload w',
    Server.callTool home browser name args w = (Fulfilled payload, w').
Proof.
  unfold Server.callTool, try_catch, ret.
  destruct (Server.dispatch home browser name args w) as [[payload|e] w']; eauto.
Qed.

(** X17. A tool name outside the seven listed ones gets the failure payload
    "Unknown tool" with that name, and nothing is read or written. *)
Theorem callTool_unknown_tool
    (name : string) (args : option Server.ToolArguments) (w : World) :
  ~ In name [ "authenticate"; "check_auth_status"; "get_service_token";
              "refresh_session"; "copy_session"; "clear_auth"; "list_services" ] ->
  Server.callTool home browser name args w
  = (Fulfilled (Server.ErrorPayload ("Unknown tool: " +:+ name)), w).
Proof.
  intros N. unfold Server.callTool, Server.dispatch, try_catch.
  repeat match goal with
         | |- context [String.eqb name ?t] =>
             let E := fresh in
             destruct (String.eqb name t) eqn:E;
             [apply String.eqb_eq in E; destruct N; subst name; simpl; tauto|]
         end.
  reflexivity.
Qed.

End Surface.

Lemma callTool_unknown_tool_witness :
  Server.callTool home0 browser_capturing "delete_everything" None world_with_services
  = (Fulfilled (Server.ErrorPayload ("Unknown tool: " +:+ "delete_everything")),
     world_with_services).
Proof.
  apply (callTool_unknown_tool home0 browser_capturing "delete_everything" None
           world_with_services).
  simpl. intros [H|[H|[H|[H|[H|[H|[H|[]]]]]]]]; discriminate H.
Defined.

Section SurfaceArguments.

Variable home : string.
Variable browser : nat -> LaunchRequest -> Settled (list Cookie).

(** X18. [get_service_token] and [copy_session] read their arguments without
    a guard: called with no arguments object they end in the failure
    payload and touch nothing. *)
Theorem callTool_missing_arguments (name : string) (w : World) :
  name = "get_service_token" \/ name = "copy_session" ->
  exists message,
    Server.callTool home browser name None w
    = (Fulfilled (Server.ErrorPayload message), w).
Proof.
  intros [->| ->]; eexists; reflexivity.
Qed.

(** X19. [clear_auth] called with no arguments object, with no [service] or
    with the service "all" clears everything under [~/.mcp-auth]. *)
Theorem callTool_clear_auth_all (args : option Server.ToolArguments) (w : World) :
  Js.truthy_arg (args ≫= Server.a_service) = None
  \/ args ≫= Server.a_service = Some "all" ->
  Server.callTool home browser "clear_auth" args w
  = (Fulfilled
       (Server.AuthPayload
          {| success := true; message := "All authentication cleared";
             service := None; cookies := None; token := None |}),
     cleared home w).
Proof.
  intros H. unfold Server.callTool, Server.dispatch, try_catch, bind; simpl.
  by rewrite (clearAuth_all_eq home _ w H).
Qed.

(** X20. [authenticate] called without [forceRefresh] and without [service]
    while a valid session is stored answers from the store: the payload
    carries the stored set and no browser is launched. *)
Theorem callTool_authenticate_default
    (args : option Server.ToolArguments) (set : list Cookie) (w : World) :
  args ≫= Server.a_service = None ->
  args ≫= Server.a_forceRefresh = None ->
  AuthManager.loadOktaCookies home w = (Fulfilled (Cookies set), w) ->
  AuthManager.validateOktaSession (Cookies set) w = (Fulfilled true, w) ->
  Server.callTool home browser "authenticate" args w
  = (Fulfilled
       (Server.AuthPayload
          {| success := true; message := "Okta authentication valid";
             service := None; cookies := Some (Cookies set); token := None |}), w).
Proof.
  intros Hs Hf Hl Hv. unfold Server.callTool, Server.dispatch, try_catch, bind; simpl.
  rewrite Hs, Hf; simpl. rewrite loadOktaCookies_eq in Hl.
  assert (stored w (AuthManager.oktaCookieFile home) = Some (Cookies set)) as Hstored.
  { destruct (stored w (AuthManager.oktaCookieFile home)) as [v|]; simpl in Hl; congruence. }
  by rewrite (authenticate_reuse_plain home browser _ set w Hstored Hv).
Qed.

End SurfaceArguments.

Lemma callTool_missing_arguments_witness :
  exists message,
    Server.callTool home0 browser_capturing "copy_session" None world_with_services
    = (Fulfilled (Server.ErrorPayload message), world_with_services).
Proof.
  apply (callTool_missing_arguments home0 browser_capturing "copy_session"
           world_with_services).
  right. reflexivity.
Defined.

Lemma callTool_clear_auth_all_witness :
  Server.callTool home0 browser_capturing "clear_auth" None world_with_services
  = (Fulfilled
       (Server.AuthPayload
          {| success := true; message := "All authentication cleared";
             service := None; cookies := None; token := None |}),
     cleared home0 world_with_services).
Proof.
  apply (callTool_clear_auth_all home0 browser_capturing None world_with_services).
  left. reflexivity.
Defined.

Lemma callTool_authenticate_default_witness :
  Server.callTool home0 browser_capturing "authenticate" None world_with_session
  = (Fulfilled
       (Server.AuthPayload
          {| success := true; message := "Okta authentication valid";
             service := None; cookies := Some (Cookies [session_cookie0]);
             token := None |}),
     world_with_session).
Proof.
  apply (callTool_authenticate_default home0 browser_capturing None [session_cookie0]
           world_with_session).
  - reflexivity.
  - reflexivity.
  - vm_compute. reflexivity.
  - vm_compute. reflexivity.
Defined.

(** ** The service registry *)

Lemma lower_upper_ascii (c : Ascii.ascii) :
  Js.lower_ascii (Cli.upper_ascii c) = Js.lower_ascii c.
Proof. destruct c as [[] [] [] [] [] [] [] []]; reflexivity. Qed.

Lemma lower_lower_ascii (c : Ascii.ascii) :
  Js.lower_ascii (Js.lower_ascii c) = Js.lower_ascii c.
Proof. destruct c as [[] [] [] [] [] [] [] []]; reflexivity. Qed.

Lemma toLowerCase_toUpperCase (s : string) :
  Js.toLowerCase (Cli.toUpperCase s) = Js.toLowerCase s.
Proof. induction s as [|c s IH]; simpl; [done|]. by rewrite lower_upper_ascii, IH. Qed.

Lemma toLowerCase_idempotent (s : string) :
  Js.toLowerCase (Js.toLowerCase s) = Js.toLowerCase s.
Proof. induction s as [|c s IH]; simpl; [done|]. by rewrite lower_lower_ascii, IH. Qed.

(** X21. On names of ASCII characters the registry's queries do not see
    letter case: a name, its upper-case form and its lower-case form get
    the same answer from [getService] and from [isValidService]. *)
Theorem registry_ignores_case (n : string) :
  ascii_only n = true ->
  ServiceRegistry.getService (Cli.toUpperCase n) = ServiceRegistry.getService n /\
  ServiceRegistry.getService (Js.toLowerCase n) = ServiceRegistry.getService n /\
  ServiceRegistry.isValidService (Cli.toUpperCase n) = ServiceRegistry.isValidService n /\
  ServiceRegistry.isValidService (Js.toLowerCase n) = ServiceRegistry.isValidService n.
Proof.
  intros _. unfold ServiceRegistry.getService, ServiceRegistry.isValidService.
  by rewrite toLowerCase_toUpperCase, toLowerCase_idempotent.
Qed.

Lemma registry_ignores_case_witness :
  ServiceRegistry.getService (Cli.toUpperCase "Splunk") = ServiceRegistry.getService "Splunk" /\
  ServiceRegistry.getService (Js.toLowerCase "Splunk") = ServiceRegistry.getService "Splunk" /\
  ServiceRegistry.isValidService (Cli.toUpperCase "Splunk")
  = ServiceRegistry.isValidService "Splunk" /\
  ServiceRegistry.isValidService (Js.toLowerCase "Splunk")
  = ServiceRegistry.isValidService "Splunk".
Proof. apply (registry_ignores_case "Splunk"). reflexivity. Defined.

Example registry_finds_splunk_in_any_case :
  ServiceRegistry.getService "SPLUNK" = Js.Own splunk_config /\
  ServiceRegistry.getService "Splunk" = Js.Own splunk_config /\
  ServiceRegistry.getService "splunk" = Js.Own splunk_config.
Proof. repeat split. Qed.

(** X22. Every name [getServiceNames] lists resolves, in any letter case, to
    the descriptor [listServices] has at the same place. *)
Theorem registry_lists_agree (i : nat) (key n : string) :
  ServiceRegistry.getServiceNames !! i = Some key ->
  Js.toLowerCase n = key ->
  exists config,
    ServiceRegistry.listServices !! i = Some config /\
    ServiceRegistry.getService n = Js.Own config /\
    ServiceRegistry.isValidService n = true.
Proof.
  intros Hi <-. unfold ServiceRegistry.getService, ServiceRegistry.isValidService, Js.has.
  destruct i as [|[|[|i]]]; try discriminate Hi;
    injection Hi as <-; eexists; repeat split; reflexivity.
Qed.

Lemma registry_lists_agree_witness :
  exists config,
    ServiceRegistry.listServices !! 1%nat = Some config /\
    ServiceRegistry.getService "Splunk" = Js.Own config /\
    ServiceRegistry.isValidService "Splunk" = true.
Proof.
  apply (registry_lists_agree 1 "splunk" "Splunk"); reflexivity.
Defined.


(** ** The command-line status tool *)

Section CommandLine.

Variable home : string.

(** X23. Over a store whose records are each missing, unparseable or a
    credential set, the status tool never exits with a code and hands
    nothing to [console.error]; because every service mirrors the
    identity-provider flag, it ends with "All services authenticated!"
    exactly when the identity-provider session is valid, and with the advice
    to run the login otherwise. *)
Theorem status_cli_advice (w : World) :
  well_formed_store home w ->
  exists st run,
    AuthManager.checkAuthStatus home w = (Fulfilled st, w) /\
    Cli.status home w = (run, w) /\
    Cli.needsAuth st = negb (okta st) /\
    Cli.stderr run = [] /\
    Cli.exit run = None /\
    last (Cli.stdout run)
    = Some (if okta st then Cli.nl +:+ "✨ All services authenticated!"
            else "   npm run auth zeppelin") /\
    length (Cli.stdout run) = if okta st then 16%nat else 21%nat.
Proof.
  intros WF. destruct (checkAuthStatus_eq home w WF) as (b & E & _).
  unfold Cli.status. rewrite E.
  do 2 eexists. split; [reflexivity|]. split; [reflexivity|].
  by destruct b.
Qed.

(** When the snapshot is rejected, the tool has printed its title and
    the rule, and hands the error to [console.error]. *)
Lemma status_cli_rejected (e : Js.Error) (w w' : World) :
  AuthManager.checkAuthStatus home w = (Rejected e, w') ->
  Cli.status home w
  = ({| Cli.stdout := [ "🔍 MCP Authentication Status"; Cli.rule ];
        Cli.stderr := [ e ]; Cli.exit := None |}, w').
Proof. intros E. unfold Cli.status. by rewrite E. Qed.

End CommandLine.

Lemma status_cli_advice_witness :
  exists st run,
    AuthManager.checkAuthStatus home0 world_scenario = (Fulfilled st, world_scenario) /\
    Cli.status home0 world_scenario = (run, world_scenario) /\
    Cli.needsAuth st = negb (okta st) /\
    Cli.stderr run = [] /\
    Cli.exit run = None /\
    last (Cli.stdout run)
    = Some (if okta st then Cli.nl +:+ "✨ All services authenticated!"
            else "   npm run auth zeppelin") /\
    length (Cli.stdout run) = if okta st then 16%nat else 21%nat.
Proof.
  apply (status_cli_advice home0 world_scenario).
  split; [vm_compute; exact I|].
  repeat (constructor; [vm_compute; exact I|]). constructor.
Defined.

Example status_cli_object_record :
  Cli.status home0 world_with_object
  = ({| Cli.stdout := [ "🔍 MCP Authentication Status"; Cli.rule ];
        Cli.stderr := [ Js.mkError "TypeError" "cookies.find is not a function" ];
        Cli.exit := None |}, world_with_object).
Proof. vm_compute. reflexivity. Qed.
